(** * MIDI channel and meta message codecs (packages [lib], [channel], [meta])

    A shallow embedding of the Go packages [channel] and [meta] of the
    repository, with the properties of their decoders and encoders.

    Conventions.
    - A Go [byte]/[uint8], [int8], [uint16] or [uint32] is a [Z]; every
      arithmetic operation that can leave the range of its Go type is
      followed by the wrap-around of that type ([u8], [i8], ...).
    - An [io.Reader] is any type with a [ByteSource] instance; the reader a
      Go function receives is passed in and the advanced reader is returned.
    - A Go function returning [(T, error)] returns an [outcome T]: a value,
      an error, or a run-time panic (Go panics are part of what a caller can
      observe, so they are modelled and never identified with errors). *)

From stdpp Require Import gmap strings list.
From Stdlib Require Import ZArith Lia.

Open Scope Z_scope.

(** ** Go run-time values shared by the packages *)

(** The [error] values the two packages can hand to a caller. *)
Inductive error : Type :=
| io_EOF                                         (* io.EOF *)
| io_Failure (cause : string)                    (* any other failure of the byte source *)
| VlqOverflow                                    (* continuation run longer than 4 bytes *)
| UnexpectedMessageLengthError (text : string).  (* lib.UnexpectedMessageLengthError *)

(** The values a [panic] is raised with. *)
Inductive panic_value : Type :=
| NilDereference                 (* method call on a nil interface value *)
| IntegerDivideByZero            (* run-time error of integer [/] *)
| MustNotHappen1 (typ : Z)       (* channel.getMsg1, default branch *)
| MustNotHappen2 (typ : Z)       (* channel.getMsg2, default branch *)
| NotImplemented.                (* panic("not implemented") *)

Inductive outcome (A : Type) : Type :=
| Ok (a : A)
| Err (e : error)
| Panic (p : panic_value).
Arguments Ok {A} a.
Arguments Err {A} e.
Arguments Panic {A} p.

(** Wrap-around of the Go integer types. *)
Definition u8 (x : Z) : Z := x mod 256.
Definition u16 (x : Z) : Z := x mod 65536.
Definition u32 (x : Z) : Z := x mod 4294967296.
Definition i8 (x : Z) : Z := (x + 128) mod 256 - 128.

(** [x << n] on a [uint8] left operand: bits shifted out are lost. *)
Definition shl8 (x n : Z) : Z := u8 (Z.shiftl x n).
(** [x >> n] on an unsigned operand. *)
Definition shr (x n : Z) : Z := Z.shiftr x n.

(** Integer division [a / b] of non-negative operands; Go panics when
    [b] is zero. *)
Definition go_div (a b : Z) : outcome Z :=
  if b =? 0 then Panic IntegerDivideByZero else Ok (a / b).

(** ** The byte-source contract ([io.Reader])

    Sequential read of one byte: the byte and the advanced source, or an
    error ([io_EOF] at the end of the input, [io_Failure] otherwise). *)
Class ByteSource (S : Type) : Type :=
  next_byte : S -> outcome Z * S.

(** An in-memory source (what [bytes.NewReader] gives): the bytes still
    to be read. *)
#[export] Instance list_source : ByteSource (list Z) :=
  fun rd => match rd with
            | [] => (Err io_EOF, [])
            | b :: rest => (Ok b, rest)
            end.

(** Computations over a byte source: the state-and-error monad the Go
    code writes out with [if err != nil { return nil, err }]. *)
Definition io (S A : Type) : Type := S -> outcome A * S.

Definition ret {S A} (a : A) : io S A := fun rd => (Ok a, rd).
Definition fail {S A} (e : error) : io S A := fun rd => (Err e, rd).
Definition raise {S A} (p : panic_value) : io S A := fun rd => (Panic p, rd).
Definition lift {S A} (o : outcome A) : io S A := fun rd => (o, rd).
Definition bind {S A B} (c : io S A) (k : A -> io S B) : io S B :=
  fun rd => match c rd with
            | (Ok a, rd') => k a rd'
            | (Err e, rd') => (Err e, rd')
            | (Panic p, rd') => (Panic p, rd')
            end.

Notation "x <- c ;; k" := (bind c (fun x => k))
  (at level 100, c at next level, right associativity).

(** ** Package [lib] (github.com/gomidi/midi/internal/lib) *)
Module lib.
Section WithSource.
Context {S : Type} `{ByteSource S}.

(** Modelled from the spec: [lib.ParseStatus] is not under src/. The
    decoder splits the status byte into a 4-bit type selector (high
    nibble) and a 4-bit channel (low nibble). *)
Definition ParseStatus (status : Z) : Z * Z :=
  (shr (Z.land status 0xF0) 4, Z.land status 0x0F).

(** Modelled from the spec: [lib.ReadByte] is not under src/. Reads
    exactly one byte; the failure of the source is propagated. *)
Definition ReadByte : io S Z := next_byte.

(** Modelled from the spec: [lib.ReadUint16] is not under src/. Two
    bytes, big-endian. *)
Definition ReadUint16 : io S Z :=
  hi <- ReadByte ;;
  lo <- ReadByte ;;
  ret (hi * 256 + lo).

(** Modelled from the spec: [lib.ReadUint24] is not under src/. A
    3-byte big-endian unsigned integer. *)
Definition ReadUint24 : io S Z :=
  b0 <- ReadByte ;;
  b1 <- ReadByte ;;
  b2 <- ReadByte ;;
  ret (b0 * 65536 + b1 * 256 + b2).

(** Modelled from the spec: [lib.ReadVarLength] is not under src/. VLQ
    decode: reads bytes until one without the continuation bit 0x80,
    seven value bits per byte, most significant group first; a
    continuation run of more than 4 bytes is rejected. *)
Fixpoint vlqDecode (left : nat) (acc : Z) : io S Z :=
  match left with
  | O => fail VlqOverflow
  | Datatypes.S left' =>
      b <- ReadByte ;;
      let acc' := acc * 128 + Z.land b 0x7F in
      if Z.land b 0x80 =? 0 then ret acc' else vlqDecode left' acc'
  end.

Definition ReadVarLength : io S Z := vlqDecode 4 0.

(** Reads [n] bytes in sequence. *)
Fixpoint ReadNBytes (n : nat) : io S (list Z) :=
  match n with
  | O => ret []
  | Datatypes.S n' =>
      b <- ReadByte ;;
      bs <- ReadNBytes n' ;;
      ret (b :: bs)
  end.

(** Modelled from the spec: [lib.ReadVarLengthData] is not under src/.
    Reads the VLQ length and copies exactly that many bytes. *)
Definition ReadVarLengthData : io S (list Z) :=
  length <- ReadVarLength ;;
  ReadNBytes (Z.to_nat length).

(** Modelled from the spec: [lib.ReadText] is not under src/. A text
    payload is an arbitrary-length byte string, read as
    [ReadVarLengthData] reads it. *)
Definition ReadText : io S (list Z) := ReadVarLengthData.
End WithSource.

(** Modelled from the spec: [lib.VlqEncode] is not under src/. Big-endian
    7-bit groups, most significant first, every byte but the last with
    the continuation bit; no redundant leading group. [vlqGroups] emits
    the groups above the last one. *)
Fixpoint vlqGroups (left : nat) (v : Z) (acc : list Z) : list Z :=
  match left with
  | O => acc
  | Datatypes.S left' =>
      if v =? 0 then acc
      else vlqGroups left' (shr v 7) (Z.lor (Z.land v 0x7F) 0x80 :: acc)
  end.

Definition VlqEncode (v : Z) : list Z :=
  vlqGroups 4 (shr v 7) [Z.land v 0x7F].
End lib.

(** ** Package [channel]: the channel message reader *)
Module channel.

Definition byteProgramChange : Z := 0xC.
Definition byteChannelPressure : Z := 0xD.
Definition byteNoteOff : Z := 0x8.
Definition byteNoteOn : Z := 0x9.
Definition bytePolyphonicKeyPressure : Z := 0xA.
Definition byteControlChange : Z := 0xB.
Definition bytePitchWheel : Z := 0xE.

(** Modelled from the spec: the message types of package [channel] and
    their [set] methods are not under src/. Each variant carries the
    channel plus its 1 or 2 data bytes; [NoteOff] has no velocity field,
    [NoteOffPedantic] keeps it. The bytes are stored as given (no
    validation of their ranges). *)
Inductive Message : Type :=
| NoteOn (channel key velocity : Z)
| NoteOff (channel key : Z)
| NoteOffPedantic (channel key velocity : Z)
| PolyphonicAfterTouch (channel key pressure : Z)
| ControlChange (channel controller value : Z)
| PitchWheel (channel arg1 arg2 : Z)
| ProgramChange (channel program : Z)
| AfterTouch (channel pressure : Z).

(** [msg.set(channel, arg)] of the [setter1] interface; the receiver
    selects the variant. The variants with two data bytes do not
    implement [setter1]. *)
Definition set1 (msg : Message) (channel arg : Z) : Message :=
  match msg with
  | ProgramChange _ _ => ProgramChange channel arg
  | AfterTouch _ _ => AfterTouch channel arg
  | other => other
  end.

(** [msg.set(channel, arg1, arg2)] of the [setter2] interface. *)
Definition set2 (msg : Message) (channel arg1 arg2 : Z) : Message :=
  match msg with
  | NoteOn _ _ _ => NoteOn channel arg1 arg2
  | NoteOff _ _ => NoteOff channel arg1
  | NoteOffPedantic _ _ _ => NoteOffPedantic channel arg1 arg2
  | PolyphonicAfterTouch _ _ _ => PolyphonicAfterTouch channel arg1 arg2
  | ControlChange _ _ _ => ControlChange channel arg1 arg2
  | PitchWheel _ _ _ => PitchWheel channel arg1 arg2
  | other => other
  end.

Section WithSource.
Context {S : Type} `{ByteSource S}.

(** [type reader struct]: the input is the caller's byte source, which
    the reader advances. *)
Record reader : Type := mkReader {
  input : S;
  status : Z;
  done : bool;
  readNoteOffPedantic : bool
}.

Definition ReaderOption : Type := reader -> reader.

Definition ReadNoteOffPedantic : ReaderOption :=
  fun rd => mkReader (input rd) (status rd) (done rd) true.

Definition NewReader (input : S) (status : Z) (options : list ReaderOption) : reader :=
  fold_left (fun rd opt => opt rd) options (mkReader input status false false).

Definition getMsg1 (r : reader) (typ channel arg : Z) : outcome Message :=
  let zero :=
    if typ =? byteProgramChange then Ok (ProgramChange 0 0)
    else if typ =? byteChannelPressure then Ok (AfterTouch 0 0)
    else Panic (MustNotHappen1 typ) in
  match zero with
  | Ok msg => Ok (set1 msg channel arg)
  | other => other
  end.

Definition getMsg2 (r : reader) (typ channel arg1 arg2 : Z) : outcome Message :=
  let zero :=
    if typ =? byteNoteOff then
      if readNoteOffPedantic r then Ok (NoteOffPedantic 0 0 0) else Ok (NoteOff 0 0)
    else if typ =? byteNoteOn then Ok (NoteOn 0 0 0)
    else if typ =? bytePolyphonicKeyPressure then Ok (PolyphonicAfterTouch 0 0 0)
    else if typ =? byteControlChange then Ok (ControlChange 0 0 0)
    else if typ =? bytePitchWheel then Ok (PitchWheel 0 0 0)
    else Panic (MustNotHappen2 typ) in
  match zero with
  | Ok msg =>
      let msg := set2 msg channel arg1 arg2 in
      (* handle noteOn messages with velocity of 0 as note offs *)
      match msg with
      | NoteOn _ _ velocity =>
          if velocity =? 0 then Ok (set2 (NoteOff 0 0) channel arg1 0) else Ok msg
      | _ => Ok msg
      end
  | other => other
  end.

(** [func (r *reader) Read() (msg Message, err error)]: the outcome and
    the reader as the call leaves it. *)
Definition Read (r : reader) : outcome Message * reader :=
  if done r then (Err io_EOF, r)
  else
    let '(typ, channel) := lib.ParseStatus (status r) in
    let '(res1, input1) := lib.ReadByte (input r) in
    let r := mkReader input1 (status r) true (readNoteOffPedantic r) in
    match res1 with
    | Err e => (Err e, r)
    | Panic p => (Panic p, r)
    | Ok arg1 =>
        if (typ =? byteProgramChange) || (typ =? byteChannelPressure) then
          (getMsg1 r typ channel arg1, r)
        else
          let '(res2, input2) := lib.ReadByte (input r) in
          let r := mkReader input2 (status r) true (readNoteOffPedantic r) in
          match res2 with
          | Err e => (Err e, r)
          | Panic p => (Panic p, r)
          | Ok arg2 => (getMsg2 r typ channel arg1 arg2, r)
          end
    end.

End WithSource.
Arguments reader S : clear implicits.
End channel.

(** ** Package [meta]: the meta message codecs *)
Module meta.

(** [type Message interface]: the closed set of types that implement it.
    A struct type carries its fields; the other types carry the value of
    their underlying type (a text is the byte string of the Go [string]). *)
Inductive Message : Type :=
| endOfTrack (m : bool)
| MIDIPort (m : Z)
| MIDIChannel (m : Z)
| Tempo (m : Z)
| SequenceNumber (m : Z)
| TimeSignature (Numerator Denominator : Z)
| KeySignature (Key : Z) (IsMajor : bool) (Num : Z) (IsFlat : bool)
| Undefined (Typ : Z) (Data : list Z)
| DevicePort (m : list Z)
| Text (m : list Z)
| Copyright (m : list Z)
| Sequence (m : list Z)
| TrackInstrument (m : list Z)
| Marker (m : list Z)
| Lyric (m : list Z)
| CuePoint (m : list Z)
| ProgramName (m : list Z).

Definition EndOfTrack : Message := endOfTrack true.

Definition majorMode : Z := 0.
Definition minorMode : Z := 1.

Definition byteEndOfTrack : Z := 0x2F.
Definition byteSequenceNumber : Z := 0x00.
Definition byteText : Z := 0x01.
Definition byteCopyright : Z := 0x02.
Definition byteSequence : Z := 0x03.
Definition byteTrackInstrument : Z := 0x04.
Definition byteLyric : Z := 0x05.
Definition byteMarker : Z := 0x06.
Definition byteCuePoint : Z := 0x07.
Definition byteMIDIChannel : Z := 0x20.
Definition byteDevicePort : Z := 0x9.
Definition byteMIDIPort : Z := 0x21.
Definition byteTempo : Z := 0x51.
Definition byteTimeSignature : Z := 0x58.
Definition byteKeySignature : Z := 0x59.
Definition byteSequencerSpecificInfo : Z := 0x7F.

(** [var metaMessages = map[byte]Message{...}]; a [nil] interface value
    is [None]. *)
Definition metaMessages : gmap Z (option Message) :=
  list_to_map
    [ (byteEndOfTrack, Some EndOfTrack);
      (byteSequenceNumber, Some (SequenceNumber 0));
      (byteText, Some (Text []));
      (byteCopyright, Some (Copyright []));
      (byteSequence, Some (Sequence []));
      (byteTrackInstrument, Some (TrackInstrument []));
      (byteLyric, Some (Lyric []));
      (byteMarker, Some (Marker []));
      (byteCuePoint, Some (CuePoint []));
      (byteMIDIChannel, Some (MIDIChannel 0));
      (byteDevicePort, Some (DevicePort []));
      (byteMIDIPort, Some (MIDIPort 0));
      (byteTempo, Some (Tempo 0));
      (byteTimeSignature, Some (TimeSignature 0 0));
      (byteKeySignature, Some (KeySignature 0 false 0 false));
      (byteSequencerSpecificInfo, None) ].

(** [metaMessages[b]]: a key that is absent gives the zero value, the
    [nil] interface. *)
Definition Dispatch (b : Z) : option Message :=
  match metaMessages !! b with
  | Some m => m
  | None => None
  end.

(** *** Encoding *)

(** [func (m *metaMessage) Bytes() []byte] on [metaMessage{Typ, Data}]. *)
Definition metaMessage_Bytes (Typ : Z) (Data : list Z) : list Z :=
  let b := [0xFF; Typ] in
  let b := b ++ lib.VlqEncode (u32 (Z.of_nat (length Data))) in
  if negb (Z.of_nat (length Data) =? 0) then b ++ Data else b.

Definition endOfTrack_Raw (m : bool) : list Z :=
  metaMessage_Bytes byteEndOfTrack [].

Definition MIDIPort_Raw (m : Z) : list Z := metaMessage_Bytes byteMIDIPort [m].

Definition MIDIChannel_Raw (m : Z) : list Z := metaMessage_Bytes byteMIDIChannel [m].

(** [binary.Write(&bf, binary.BigEndian, m.Number())] on a [uint16]. *)
Definition SequenceNumber_Raw (m : Z) : list Z :=
  metaMessage_Bytes byteSequenceNumber [shr m 8; Z.land m 0xFF].

(** The loop [for dec > 2 { bin++; dec = dec >> 1 }] of [dec2binDenom],
    run for at most [left] iterations; it returns [bin]. *)
Fixpoint dec2binDenom_loop (left : nat) (dec bin : Z) : Z :=
  match left with
  | O => bin
  | S left' =>
      if 2 <? dec then dec2binDenom_loop left' (shr dec 1) (u8 (bin + 1))
      else bin
  end.

(** [dec2binDenom] converts the decimal denominator to the binary one.
    Every iteration makes [dec] smaller, so [dec] iterations are enough
    ([dec2binDenom_loop_exits]). *)
Definition dec2binDenom (dec : Z) : Z :=
  if dec <=? 1 then 0
  else u8 (dec2binDenom_loop (Z.to_nat dec) dec 0 + 1).

(** [bin2decDenom] converts the binary denominator to the decimal. *)
Definition bin2decDenom (bin : Z) : Z :=
  if bin =? 0 then 1 else shl8 2 (u8 (bin - 1)).

Definition TimeSignature_Raw (Numerator Denominator : Z) : list Z :=
  let cpcl := 8 in
  let dsqpq := 8 in
  let denom := dec2binDenom Denominator in
  metaMessage_Bytes byteTimeSignature [Numerator; denom; cpcl; dsqpq].

Definition KeySignature_Raw (Key : Z) (IsMajor : bool) (Num : Z) (IsFlat : bool) : list Z :=
  let mi := if negb IsMajor then 1 else 0 in
  let sf := i8 Num in
  let sf := if IsFlat then i8 (sf * (-1)) else sf in
  metaMessage_Bytes byteKeySignature [u8 sf; u8 mi].

Definition Undefined_Raw (Typ : Z) (Data : list Z) : list Z :=
  metaMessage_Bytes Typ Data.

(** [func (m DevicePort) Raw() []byte { panic("not implemented") }] *)
Definition DevicePort_Raw (m : list Z) : outcome (list Z) :=
  Panic NotImplemented.

Definition Text_Raw (m : list Z) : list Z := metaMessage_Bytes byteText m.
Definition Copyright_Raw (m : list Z) : list Z := metaMessage_Bytes byteCopyright m.
Definition Sequence_Raw (m : list Z) : list Z := metaMessage_Bytes byteSequence m.
Definition TrackInstrument_Raw (m : list Z) : list Z :=
  metaMessage_Bytes byteTrackInstrument m.
Definition Marker_Raw (m : list Z) : list Z := metaMessage_Bytes byteMarker m.
Definition Lyric_Raw (m : list Z) : list Z := metaMessage_Bytes byteLyric m.
Definition CuePoint_Raw (m : list Z) : list Z := metaMessage_Bytes byteCuePoint m.

(** [m.Raw()] on a [Message]. [Tempo.Raw] computes in [float64] and
    [ProgramName.Raw] uses a constant that the package does not declare;
    both are outside this development ([None]). *)
Definition Raw (m : Message) : option (outcome (list Z)) :=
  match m with
  | endOfTrack b => Some (Ok (endOfTrack_Raw b))
  | MIDIPort n => Some (Ok (MIDIPort_Raw n))
  | MIDIChannel n => Some (Ok (MIDIChannel_Raw n))
  | Tempo _ => None
  | SequenceNumber n => Some (Ok (SequenceNumber_Raw n))
  | TimeSignature n d => Some (Ok (TimeSignature_Raw n d))
  | KeySignature k ma n f => Some (Ok (KeySignature_Raw k ma n f))
  | Undefined t d => Some (Ok (Undefined_Raw t d))
  | DevicePort s => Some (DevicePort_Raw s)
  | Text s => Some (Ok (Text_Raw s))
  | Copyright s => Some (Ok (Copyright_Raw s))
  | Sequence s => Some (Ok (Sequence_Raw s))
  | TrackInstrument s => Some (Ok (TrackInstrument_Raw s))
  | Marker s => Some (Ok (Marker_Raw s))
  | Lyric s => Some (Ok (Lyric_Raw s))
  | CuePoint s => Some (Ok (CuePoint_Raw s))
  | ProgramName _ => None
  end.

(** *** Key signatures *)

(** The loop [for tmp < 0 { tmp += 12 }], run for at most [left]
    iterations. *)
Fixpoint clampOctave_loop (left : nat) (tmp : Z) : Z :=
  match left with
  | O => tmp
  | S left' => if tmp <? 0 then clampOctave_loop left' (tmp + 12) else tmp
  end.

(** [keyFromSharpsOrFlats(sharpsOrFlats int8, mode uint8) uint8]. The
    product [sharpsOrFlats * 7] is an [int8] product and is converted to
    [int] afterwards. [-tmp] iterations are enough for the loop
    ([clampOctave_loop_exits]); [%] is Go's truncated remainder. *)
Definition keyFromSharpsOrFlats (sharpsOrFlats mode : Z) : Z :=
  let tmp := i8 (sharpsOrFlats * 7) in
  let tmp := if mode =? minorMode then tmp - 3 else tmp in
  let tmp := clampOctave_loop (Z.to_nat (- tmp)) tmp in
  u8 (Z.rem tmp 12).

(** *** Note names *)

(** A Go function that returns a plain value or panics with a message. *)
Inductive or_panic (A : Type) : Type :=
| Returns (a : A)
| Panics (message : string).
Arguments Returns {A} a.
Arguments Panics {A} message.

Definition degreeC : Z := 0.
Definition degreeCs : Z := 1.
Definition degreeDf : Z := degreeCs.
Definition degreeD : Z := 2.
Definition degreeDs : Z := 3.
Definition degreeEf : Z := degreeDs.
Definition degreeE : Z := 4.
Definition degreeF : Z := 5.
Definition degreeFs : Z := 6.
Definition degreeGf : Z := degreeFs.
Definition degreeG : Z := 7.
Definition degreeGs : Z := 8.
Definition degreeAf : Z := degreeGs.
Definition degreeA : Z := 9.
Definition degreeAs : Z := 10.
Definition degreeBf : Z := degreeAs.
Definition degreeB : Z := 11.
Definition degreeCf : Z := degreeB.

(** [func (m KeySignature) Note() (note string)]: the [switch m.Key],
    its cases in the order of the source. *)
Definition KeySignature_Note (Key : Z) (IsMajor : bool) (Num : Z) (IsFlat : bool)
  : or_panic string :=
  if Key =? degreeC then Returns "C"%string
  else if Key =? degreeD then Returns "D"%string
  else if Key =? degreeE then Returns "E"%string
  else if Key =? degreeF then Returns "F"%string
  else if Key =? degreeG then Returns "G"%string
  else if Key =? degreeA then Returns "A"%string
  else if Key =? degreeB then Returns "B"%string
  else if Key =? degreeCs then Returns (if IsFlat then "D♭" else "C♯")%string
  else if Key =? degreeDs then Returns (if IsFlat then "E♭" else "D♯")%string
  else if Key =? degreeFs then Returns (if IsFlat then "G♭" else "F♯")%string
  else if Key =? degreeGs then Returns (if IsFlat then "A♭" else "G♯")%string
  else if Key =? degreeAs then Returns (if IsFlat then "B♭" else "A♯")%string
  else Panics "unreachable".

(** [func (m KeySignature) Text() string]; a panic of [Note] goes
    through. *)
Definition KeySignature_Text (Key : Z) (IsMajor : bool) (Num : Z) (IsFlat : bool)
  : or_panic string :=
  match KeySignature_Note Key IsMajor Num IsFlat with
  | Returns note => Returns (note +:+ (if IsMajor then " maj." else " min."))%string
  | Panics message => Panics message
  end.

(** *** Tempo encoding *)

(** [big.NewInt(x).Bytes()] for an [int64] [x] that is not negative: the
    big-endian bytes of [x] without leading zero bytes, none for 0. An
    [int64] has at most 8 of them. *)
Fixpoint big_Bytes_loop (left : nat) (x : Z) (acc : list Z) : list Z :=
  match left with
  | O => acc
  | S left' =>
      if x =? 0 then acc
      else big_Bytes_loop left' (x / 256) (x mod 256 :: acc)
  end.

Definition big_Bytes (x : Z) : list Z := big_Bytes_loop 8 x [].

Section TempoRaw.
(** [uint32(float64(60000000) / float64(bpm))]: the quotient is computed
    in [float64], which this development does not model; the conversion
    is a parameter of [Tempo_Raw]. *)
Variable muSecPerQuarterNote_of : Z -> Z.

(** [func (m Tempo) Raw() []byte], from the clamp on: the three bytes
    [b] start as zeros and are assigned from [b4] by its length. *)
Definition Tempo_Raw (m : Z) : list Z :=
  let muSecPerQuarterNote := muSecPerQuarterNote_of m in
  let muSecPerQuarterNote :=
    if 0xFFFFFF <? muSecPerQuarterNote then 0xFFFFFF else muSecPerQuarterNote in
  let b4 := big_Bytes muSecPerQuarterNote in
  let b := [0; 0; 0] in
  let b :=
    match b4 with
    | [] => b
    | [x0] => <[2%nat := x0]> b
    | [x0; x1] => <[1%nat := x0]> (<[2%nat := x1]> b)
    | [x0; x1; x2] => <[0%nat := x0]> (<[1%nat := x1]> (<[2%nat := x2]> b))
    | _ => b
    end in
  metaMessage_Bytes byteTempo b.
End TempoRaw.

(** *** Decoding *)
Section WithSource.
Context {S : Type} `{ByteSource S}.

Definition endOfTrack_readFrom (m : bool) : io S Message :=
  length <- lib.ReadVarLength ;;
  if negb (length =? 0) then
    fail (UnexpectedMessageLengthError "EndOfTrack expected length 0")
  else ret (endOfTrack m).

Definition MIDIPort_readFrom (m : Z) : io S Message :=
  length <- lib.ReadVarLength ;;
  if negb (length =? 1) then
    fail (UnexpectedMessageLengthError "MIDI Port Message expected length 1")
  else
    port <- lib.ReadByte ;;
    ret (MIDIPort port).

Definition MIDIChannel_readFrom (m : Z) : io S Message :=
  length <- lib.ReadVarLength ;;
  if negb (length =? 1) then
    fail (UnexpectedMessageLengthError "Midi Channel Message expected length 1")
  else
    ch <- lib.ReadByte ;;
    ret (MIDIChannel ch).

Definition Tempo_readFrom (m : Z) : io S Message :=
  length <- lib.ReadVarLength ;;
  if negb (length =? 3) then
    fail (UnexpectedMessageLengthError "Tempo expected length 3")
  else
    microsecondsPerCrotchet <- lib.ReadUint24 ;;
    bpm <- lift (go_div 60000000 microsecondsPerCrotchet) ;;
    ret (Tempo bpm).

(** The length is read with [lib.ReadByte]; a length other than 0 is
    not compared with 2. *)
Definition SequenceNumber_readFrom (m : Z) : io S Message :=
  length <- lib.ReadByte ;;
  if length =? 0 then ret (SequenceNumber 0)
  else
    sequenceNumber <- lib.ReadUint16 ;;
    ret (SequenceNumber sequenceNumber).

(** The denominator is [2 << (denomenator - 1)] in [uint8] arithmetic,
    written out here and not through [bin2decDenom]. *)
Definition TimeSignature_readFrom (Numerator Denominator : Z) : io S Message :=
  length <- lib.ReadVarLength ;;
  if negb (length =? 4) then
    fail (UnexpectedMessageLengthError "TimeSignature expected length 4")
  else
    numerator <- lib.ReadByte ;;
    denomenator <- lib.ReadByte ;;
    clocksPerClick <- lib.ReadByte ;;
    demiSemiQuaverPerQuarter <- lib.ReadByte ;;
    ret (TimeSignature numerator (shl8 2 (u8 (denomenator - 1)))).

Definition KeySignature_readFrom (Key : Z) (IsMajor : bool) (Num : Z) (IsFlat : bool)
  : io S Message :=
  length <- lib.ReadVarLength ;;
  if negb (length =? 2) then
    fail (UnexpectedMessageLengthError "KeySignature expected length 2")
  else
    b <- lib.ReadByte ;;
    let sharpsOrFlats := i8 b in
    mode <- lib.ReadByte ;;
    let num := sharpsOrFlats in
    let num := if num <? 0 then i8 (num * (-1)) else num in
    let key := keyFromSharpsOrFlats sharpsOrFlats mode in
    ret (KeySignature key (mode =? majorMode) (u8 num) (sharpsOrFlats <? 0)).

Definition Undefined_readFrom (Typ : Z) (Data : list Z) : io S Message :=
  data <- lib.ReadVarLengthData ;;
  ret (Undefined Typ data).

Definition DevicePort_readFrom (m : list Z) : io S Message :=
  text <- lib.ReadText ;;
  ret (DevicePort text).

Definition Text_readFrom (m : list Z) : io S Message :=
  text <- lib.ReadText ;;
  ret (Text text).

Definition Copyright_readFrom (m : list Z) : io S Message :=
  text <- lib.ReadText ;;
  ret (Copyright text).

Definition Sequence_readFrom (m : list Z) : io S Message :=
  text <- lib.ReadText ;;
  ret (Sequence text).

Definition TrackInstrument_readFrom (m : list Z) : io S Message :=
  text <- lib.ReadText ;;
  ret (TrackInstrument text).

Definition Marker_readFrom (m : list Z) : io S Message :=
  text <- lib.ReadText ;;
  ret (Marker text).

Definition Lyric_readFrom (m : list Z) : io S Message :=
  text <- lib.ReadText ;;
  ret (Lyric text).

Definition CuePoint_readFrom (m : list Z) : io S Message :=
  text <- lib.ReadText ;;
  ret (CuePoint text).

(** [ProgramName.readFrom] calls the package's [readText], which is not
    under src/; it is taken to read a text as [lib.ReadText] does. *)
Definition ProgramName_readFrom (m : list Z) : io S Message :=
  text <- lib.ReadText ;;
  ret (ProgramName text).

(** [m.readFrom(rd)] on a non-nil [Message]: the method of the dynamic
    type. *)
Definition readFrom (m : Message) : io S Message :=
  match m with
  | endOfTrack b => endOfTrack_readFrom b
  | MIDIPort n => MIDIPort_readFrom n
  | MIDIChannel n => MIDIChannel_readFrom n
  | Tempo n => Tempo_readFrom n
  | SequenceNumber n => SequenceNumber_readFrom n
  | TimeSignature n d => TimeSignature_readFrom n d
  | KeySignature k ma n f => KeySignature_readFrom k ma n f
  | Undefined t d => Undefined_readFrom t d
  | DevicePort s => DevicePort_readFrom s
  | Text s => Text_readFrom s
  | Copyright s => Copyright_readFrom s
  | Sequence s => Sequence_readFrom s
  | TrackInstrument s => TrackInstrument_readFrom s
  | Marker s => Marker_readFrom s
  | Lyric s => Lyric_readFrom s
  | CuePoint s => CuePoint_readFrom s
  | ProgramName s => ProgramName_readFrom s
  end.

(** [func ReadFrom(typ byte, rd io.Reader) (Message, error)]. The
    condition is [m != nil], as the source has it; [m.readFrom] on the
    [nil] interface is a run-time panic. *)
Definition ReadFrom (typ : Z) : io S Message :=
  let m := Dispatch typ in
  let m := match m with
           | Some _ => Some (Undefined typ [])
           | None => None
           end in
  match m with
  | Some m => readFrom m
  | None => raise NilDereference
  end.

End WithSource.
End meta.

(** ** Definitions used by the statements *)


(** The denominator rule as the specification words it, for every
    exponent byte: the denominator of the decoded value is the power of
    two. *)
Definition denominator_is_power_of_two : Prop :=
  forall numerator e cpc dsq : Z,
    0 <= e < 256 ->
    meta.TimeSignature_readFrom 0 0 [4; numerator; e; cpc; dsq] =
    (Ok (meta.TimeSignature numerator (2 ^ e)), []).

(** The decoder applied to the bytes of [Raw()] after FF and the type
    byte, which the caller of the codec has consumed. *)
Definition TimeSignature_roundtrip (num denom : Z) : outcome meta.Message * list Z :=
  meta.TimeSignature_readFrom 0 0 (drop 2 (meta.TimeSignature_Raw num denom)).

(** The type ids under which [metaMessages] holds a codec that is not
    [nil]. *)
Definition registered_ids : list Z :=
  [0x2F; 0x00; 0x01; 0x02; 0x03; 0x04; 0x05; 0x06; 0x07; 0x20; 0x09; 0x21; 0x51; 0x58; 0x59].

(** * Properties *)

(** ** Arithmetic on bytes *)

(** A decidable property of a byte holds of every byte once it has been
    evaluated on the 256 of them. *)
Lemma forall_byte (P : Z -> bool) :
  forallb P (map Z.of_nat (seq 0 256)) = true ->
  forall x, 0 <= x < 256 -> P x = true.
Proof.
  intros Hall x Hx.
  rewrite forallb_forall in Hall. apply Hall.
  apply in_map_iff. exists (Z.to_nat x). split; [lia|].
  apply in_seq. lia.
Qed.

Lemma ParseStatus_nibbles (status : Z) :
  0 <= status < 256 ->
  lib.ParseStatus status = (status / 16, status mod 16).
Proof.
  intros Hs.
  pose proof (forall_byte
    (fun s => (fst (lib.ParseStatus s) =? s / 16) && (snd (lib.ParseStatus s) =? s mod 16))
    eq_refl status Hs) as Hb.
  apply andb_prop in Hb as [H1 H2].
  apply Z.eqb_eq in H1, H2.
  destruct (lib.ParseStatus status) as [t c]. simpl in *. congruence.
Qed.

(** ** The channel reader *)
Section ChannelReader.
Context {S : Type} `{ByteSource S}.
Implicit Types r : channel.reader S.

Lemma Read_done r :
  channel.done r = true -> channel.Read r = (Err io_EOF, r).
Proof. intros Hd. unfold channel.Read. now rewrite Hd. Qed.



(** C10. On a reader that has not been used, with a status byte whose
    high nibble is outside 0x8-0xE and a source that delivers two bytes,
    [Read] reads both bytes and panics in the default branch of
    [getMsg2]; no error value is returned. *)
Theorem Read_panics_on_non_channel_status r (arg1 arg2 : Z) (s1 s2 : S) :
  channel.done r = false ->
  0 <= channel.status r < 256 ->
  ~ (0x8 <= channel.status r / 16 <= 0xE) ->
  lib.ReadByte (channel.input r) = (Ok arg1, s1) ->
  lib.ReadByte s1 = (Ok arg2, s2) ->
  channel.Read r =
    (Panic (MustNotHappen2 (channel.status r / 16)),
     channel.mkReader s2 (channel.status r) true (channel.readNoteOffPedantic r)).
Proof.
  intros Hd Hs Hn H1 H2.
  unfold channel.Read. rewrite Hd, (ParseStatus_nibbles _ Hs), H1. simpl.
  set (typ := channel.status r / 16) in *.
  assert (Ht : 0 <= typ < 16) by (subst typ; split;
    [apply Z.div_pos; lia | apply Z.div_lt_upper_bound; lia]).
  unfold channel.byteProgramChange, channel.byteChannelPressure.
  destruct (typ =? 12) eqn:E12; [lia|].
  destruct (typ =? 13) eqn:E13; [lia|]. simpl.
  rewrite H2. f_equal.
  unfold channel.getMsg2, channel.byteNoteOff, channel.byteNoteOn,
    channel.bytePolyphonicKeyPressure, channel.byteControlChange,
    channel.bytePitchWheel.
  destruct (typ =? 8) eqn:E8; [lia|].
  destruct (typ =? 9) eqn:E9; [lia|].
  destruct (typ =? 10) eqn:E10; [lia|].
  destruct (typ =? 11) eqn:E11; [lia|].
  destruct (typ =? 14) eqn:E14; [lia|].
  reflexivity.
Qed.

End ChannelReader.

Lemma Read_panics_on_non_channel_status_witness :
  channel.Read (channel.NewReader [60; 64] 0xF2 []) =
    (Panic (MustNotHappen2 15), channel.mkReader [] 0xF2 true false).
Proof.
  apply (Read_panics_on_non_channel_status
           (channel.NewReader [60; 64] 0xF2 []) 60 64 [64] []).
  - reflexivity.
  - simpl. lia.
  - simpl. vm_compute. intros [H1 H2]. apply H2. reflexivity.
  - reflexivity.
  - reflexivity.
Defined.

(** *** Note-off messages with the pedantic option *)
Section Pedantic.
Context {S : Type} `{ByteSource S}.

(** With the option set, a status byte with high nibble 0x8 gives the
    variant that keeps the velocity. *)
Lemma getMsg2_pedantic_status_8 (r : channel.reader S) (ch key vel : Z) :
  channel.readNoteOffPedantic r = true ->
  channel.getMsg2 r channel.byteNoteOff ch key vel = Ok (channel.NoteOffPedantic ch key vel).
Proof. intros Hp. unfold channel.getMsg2. simpl. now rewrite Hp. Qed.

(** A note-on with velocity 0 gives [NoteOff], whatever the option. *)
Lemma getMsg2_NoteOn_velocity_0 (r : channel.reader S) (ch key : Z) :
  channel.getMsg2 r channel.byteNoteOn ch key 0 = Ok (channel.NoteOff ch key).
Proof. reflexivity. Qed.

Lemma NewReader_pedantic (input : S) (status : Z) :
  channel.NewReader input status [channel.ReadNoteOffPedantic] =
  channel.mkReader input status false true.
Proof. reflexivity. Qed.

End Pedantic.

(** C2. The reader with the pedantic option, as the code has it: the
    status byte 0x82 with data bytes 60, 64 (a literal note-off) gives
    [NoteOffPedantic], and the status byte 0x92 with data bytes 60, 0 (a
    note-on with velocity 0) gives [NoteOff]. The two variants are the
    other way round than the documentation of [ReadNoteOffPedantic]
    says. *)
Theorem Read_pedantic_variants_swapped :
  fst (channel.Read (channel.NewReader [60; 64] 0x82 [channel.ReadNoteOffPedantic]))
    = Ok (channel.NoteOffPedantic 2 60 64) /\
  fst (channel.Read (channel.NewReader [60; 0] 0x92 [channel.ReadNoteOffPedantic]))
    = Ok (channel.NoteOff 2 60).
Proof. split; reflexivity. Qed.

(** ** Meta messages *)

(** *** Dispatch *)

(** What [ReadFrom] does for every type id: a registered codec is
    replaced by [Undefined], and an id without a codec leaves the [nil]
    interface, whose method call panics. *)
Lemma ReadFrom_unfold {S : Type} `{ByteSource S} (typ : Z) (rd : S) :
  meta.ReadFrom typ rd =
  match meta.Dispatch typ with
  | Some _ => meta.Undefined_readFrom typ [] rd
  | None => (Panic NilDereference, rd)
  end.
Proof. unfold meta.ReadFrom. destruct (meta.Dispatch typ); reflexivity. Qed.

(** C1. The type id 0x50 has no codec and [ReadFrom] panics on it,
    where the claim has [Undefined{0x50, [1,2,3]}]; the type id 0x51 has
    the [Tempo] codec and [ReadFrom] decodes it with [Undefined]. The
    encoder is as claimed: [Undefined{0x50, [1,2,3]}.Raw()] is
    FF 50 03 01 02 03. *)
Theorem ReadFrom_dispatch_inverted :
  meta.Dispatch 0x50 = None /\
  meta.ReadFrom 0x50 [3; 1; 2; 3] = (Panic NilDereference, [3; 1; 2; 3]) /\
  meta.Dispatch 0x51 = Some (meta.Tempo 0) /\
  meta.ReadFrom 0x51 [3; 0x07; 0xA1; 0x20] = (Ok (meta.Undefined 0x51 [0x07; 0xA1; 0x20]), []) /\
  meta.Undefined_readFrom 0x50 [] [3; 1; 2; 3] = (Ok (meta.Undefined 0x50 [1; 2; 3]), []) /\
  meta.Undefined_Raw 0x50 [1; 2; 3] = [0xFF; 0x50; 0x03; 0x01; 0x02; 0x03].
Proof. repeat split; vm_compute; reflexivity. Qed.

(** *** Tempo *)

(** A payload that is not zero decodes to the integer quotient. *)
Lemma Tempo_readFrom_nonzero (m b0 b1 b2 : Z) (rest : list Z) :
  b0 * 65536 + b1 * 256 + b2 <> 0 ->
  meta.Tempo_readFrom m (3 :: b0 :: b1 :: b2 :: rest) =
  (Ok (meta.Tempo (60000000 / (b0 * 65536 + b1 * 256 + b2))), rest).
Proof.
  intros Hnz. unfold meta.Tempo_readFrom, bind, lift, go_div. simpl.
  destruct (b0 * 65536 + b1 * 256 + b2 =? 0) eqn:E; [lia|reflexivity].
Qed.

(** C3. A tempo payload of 0 microseconds, FF 51 03 00 00 00: the
    division is carried out and the decoder panics with the run-time
    error of an integer division by zero; no error value is returned. *)
Theorem Tempo_readFrom_zero_panics :
  meta.Tempo_readFrom 0 [3; 0; 0; 0] = (Panic IntegerDivideByZero, []).
Proof. reflexivity. Qed.

(** *** Sequence number *)

(** On an in-memory source the only error of [SequenceNumber.readFrom]
    is the end of the input: there is no length-mismatch error. *)
Lemma SequenceNumber_readFrom_errors (m : Z) (rd : list Z) (e : error) :
  fst (meta.SequenceNumber_readFrom m rd) = Err e -> e = io_EOF.
Proof.
  unfold meta.SequenceNumber_readFrom, lib.ReadUint16, bind, lib.ReadByte, ret.
  destruct rd as [|len [|hi [|lo rest]]]; simpl;
    try destruct (len =? 0); simpl; congruence.
Qed.

(** A declared length other than 0 is followed by a 2-byte read,
    whatever the length is. *)
Lemma SequenceNumber_readFrom_any_length (m len hi lo : Z) (rest : list Z) :
  len <> 0 ->
  meta.SequenceNumber_readFrom m (len :: hi :: lo :: rest) =
  (Ok (meta.SequenceNumber (hi * 256 + lo)), rest).
Proof.
  intros Hl. unfold meta.SequenceNumber_readFrom, bind. simpl.
  destruct (len =? 0) eqn:E; [lia|reflexivity].
Qed.

(** C6. A sequence number event with declared length 3,
    FF 00 03 00 07 09: the decoder returns [SequenceNumber(7)] and leaves
    the third payload byte unread, where the claim has a length-mismatch
    error and no value. *)
Theorem SequenceNumber_readFrom_length_3 :
  meta.SequenceNumber_readFrom 0 [3; 0; 7; 9] = (Ok (meta.SequenceNumber 7), [9]).
Proof. reflexivity. Qed.

(** *** Device port *)

(** C8. A device port event FF 09 03 61 62 63 decodes to
    [DevicePort("abc")], and [Raw()] on that value panics with
    "not implemented" where the claim has the wire bytes; the sibling
    [Text] encodes the same payload. *)
Theorem DevicePort_Raw_not_implemented :
  meta.DevicePort_readFrom [] [3; 97; 98; 99] = (Ok (meta.DevicePort [97; 98; 99]), []) /\
  meta.Raw (meta.DevicePort [97; 98; 99]) = Some (Panic NotImplemented) /\
  meta.Raw (meta.Text [97; 98; 99]) = Some (Ok [0xFF; 0x01; 3; 97; 98; 99]).
Proof. repeat split; vm_compute; reflexivity. Qed.

(** *** Time signature *)

(** The loop of [dec2binDenom] stops by its own condition: more
    iterations than [dec] change nothing. *)
Lemma dec2binDenom_loop_exits (n : nat) :
  forall (m : nat) (dec bin : Z),
    dec <= Z.of_nat n -> (n <= m)%nat ->
    meta.dec2binDenom_loop m dec bin = meta.dec2binDenom_loop n dec bin.
Proof.
  induction n as [|n IH]; intros m dec bin Hdec Hm.
  - destruct m as [|m]; simpl; [reflexivity|].
    destruct (2 <? dec) eqn:E; [lia|reflexivity].
  - destruct m as [|m]; [lia|]. simpl.
    destruct (2 <? dec) eqn:E; [|reflexivity].
    apply IH; [|lia].
    unfold shr. rewrite Z.shiftr_div_pow2 by lia.
    change (2 ^ 1) with 2.
    assert (dec / 2 < dec) by (apply Z.div_lt; lia). lia.
Qed.

(** The shift [2 << (e - 1)] in [uint8] arithmetic, for every byte [e]
    but 0: the power of two while it fits in the byte, 0 from [e = 8]
    on. *)
Lemma shl8_denominator (e : Z) :
  0 <= e < 256 ->
  (1 <= e <= 7 -> shl8 2 (u8 (e - 1)) = 2 ^ e) /\
  (8 <= e -> shl8 2 (u8 (e - 1)) = 0).
Proof.
  intros He.
  pose proof (forall_byte
    (fun e => if (1 <=? e) && (e <=? 7) then shl8 2 (u8 (e - 1)) =? 2 ^ e
              else if 8 <=? e then shl8 2 (u8 (e - 1)) =? 0 else true)
    eq_refl e He) as Hb.
  simpl in Hb. split; intros Hr.
  - destruct (1 <=? e) eqn:E1; [|lia]. destruct (e <=? 7) eqn:E7; [|lia].
    simpl in Hb. now apply Z.eqb_eq.
  - destruct (e <=? 7) eqn:E7; [lia|]. rewrite andb_false_r in Hb.
    destruct (8 <=? e) eqn:E8; [|lia]. now apply Z.eqb_eq.
Qed.

(** C4, counterexample. The exponent byte 8, FF 58 04 04 08 18 08:
    2^8 does not fit in the [uint8] field and the denominator is 0. *)
Lemma TimeSignature_readFrom_exponent_8 :
  meta.TimeSignature_readFrom 0 0 [4; 4; 8; 24; 8] = (Ok (meta.TimeSignature 4 0), []) /\
  ~ denominator_is_power_of_two.
Proof.
  split; [reflexivity|].
  intros Hc. specialize (Hc 4 8 24 8 ltac:(lia)). vm_compute in Hc. discriminate Hc.
Qed.

(** C4, as amended. A time signature event with declared length 4 and
    exponent byte [e] decodes to a value with the numerator byte and a
    denominator that is 2^e for [e] in 1..7 (4 for [e = 2]) and 0 for
    [e] in 8..255, where 2^e does not fit in the [uint8] field; the four
    payload bytes are consumed. *)
Theorem TimeSignature_readFrom_denominator
  (n0 d0 numerator e cpc dsq : Z) (rd rest : list Z) :
  lib.ReadVarLength rd = (Ok 4, numerator :: e :: cpc :: dsq :: rest) ->
  0 <= e < 256 ->
  exists denom : Z,
    meta.TimeSignature_readFrom n0 d0 rd = (Ok (meta.TimeSignature numerator denom), rest) /\
    (1 <= e <= 7 -> denom = 2 ^ e) /\
    (e = 2 -> denom = 4) /\
    (8 <= e -> denom = 0).
Proof.
  intros Hlen He.
  exists (shl8 2 (u8 (e - 1))).
  destruct (shl8_denominator e He) as [Hpow Hzero].
  split; [|split; [exact Hpow|split; [|exact Hzero]]].
  - unfold meta.TimeSignature_readFrom, bind. rewrite Hlen. reflexivity.
  - intros ->. reflexivity.
Qed.

Lemma TimeSignature_readFrom_denominator_witness :
  exists denom : Z,
    meta.TimeSignature_readFrom 0 0 [4; 4; 2; 24; 8] = (Ok (meta.TimeSignature 4 denom), []) /\
    (1 <= 2 <= 7 -> denom = 2 ^ 2) /\
    (2 = 2 -> denom = 4) /\
    (8 <= 2 -> denom = 0).
Proof.
  apply (TimeSignature_readFrom_denominator 0 0 4 2 24 8 [4; 4; 2; 24; 8] []).
  - reflexivity.
  - lia.
Defined.

(** The encoder writes 8 and 8 for the two bytes the value does not
    keep. *)
Lemma TimeSignature_Raw_bytes (num denom : Z) :
  meta.TimeSignature_Raw num denom = [0xFF; 0x58; 4; num; meta.dec2binDenom denom; 8; 8].
Proof. reflexivity. Qed.

(** The round trip holds for the denominators 2, 4, 8, 16 and 32. *)
Lemma TimeSignature_roundtrip_from_2 (num denom : Z) :
  In denom [2; 4; 8; 16; 32] ->
  TimeSignature_roundtrip num denom = (Ok (meta.TimeSignature num denom), []).
Proof.
  intros Hd. unfold TimeSignature_roundtrip. rewrite TimeSignature_Raw_bytes.
  simpl in Hd.
  destruct Hd as [<-|[<-|[<-|[<-|[<-|[]]]]]]; reflexivity.
Qed.

(** C5. The time signature 4/1: [Raw()] is FF 58 04 04 00 08 08, with
    the exponent byte 0 and the two fixed bytes 8, 8, and the decoder
    gives the denominator 0 for the exponent byte 0, so the round trip
    returns 4/0 and not 4/1. [bin2decDenom], which the decoder does not
    call, gives 1. *)
Theorem TimeSignature_roundtrip_denominator_1 :
  meta.TimeSignature_Raw 4 1 = [0xFF; 0x58; 4; 4; 0; 8; 8] /\
  TimeSignature_roundtrip 4 1 = (Ok (meta.TimeSignature 4 0), []) /\
  meta.bin2decDenom (meta.dec2binDenom 1) = 1.
Proof. repeat split; reflexivity. Qed.

(** *** Key signature *)

(** The loop of [keyFromSharpsOrFlats] stops by its own condition within
    [-tmp] iterations, on a value that is not negative and congruent to
    [tmp] modulo 12. *)
Lemma clampOctave_loop_exits (n : nat) :
  forall tmp : Z,
    - tmp <= Z.of_nat n ->
    0 <= meta.clampOctave_loop n tmp /\
    meta.clampOctave_loop n tmp mod 12 = tmp mod 12.
Proof.
  induction n as [|n IH]; intros tmp Hn; simpl.
  - split; [lia|reflexivity].
  - destruct (tmp <? 0) eqn:E.
    + destruct (IH (tmp + 12) ltac:(lia)) as [Hpos Hmod].
      split; [exact Hpos|].
      rewrite Hmod. replace (tmp + 12) with (tmp + 1 * 12) by lia.
      apply Z_mod_plus_full.
    + split; [lia|reflexivity].
Qed.

(** Where the [int8] product does not wrap, the key is the pitch class
    of the formula. *)
Lemma keyFromSharpsOrFlats_small (sf mode : Z) :
  -18 <= sf <= 18 ->
  meta.keyFromSharpsOrFlats sf mode =
  (sf * 7 - (if mode =? meta.minorMode then 3 else 0)) mod 12.
Proof.
  intros Hsf. unfold meta.keyFromSharpsOrFlats.
  assert (Hi : i8 (sf * 7) = sf * 7).
  { unfold i8. rewrite Z.mod_small by lia. lia. }
  rewrite Hi.
  set (tmp := if mode =? meta.minorMode then sf * 7 - 3 else sf * 7).
  assert (Ht : tmp = sf * 7 - (if mode =? meta.minorMode then 3 else 0)).
  { subst tmp. destruct (mode =? meta.minorMode); lia. }
  destruct (clampOctave_loop_exits (Z.to_nat (- tmp)) tmp ltac:(lia)) as [Hpos Hmod].
  rewrite Z.rem_mod_nonneg by lia.
  rewrite Hmod, <- Ht. unfold u8.
  pose proof (Z.mod_pos_bound tmp 12 ltac:(lia)).
  apply Z.mod_small. lia.
Qed.

(** The three key signatures that the specification gives as examples
    decode as it says. *)
Lemma KeySignature_readFrom_examples :
  meta.KeySignature_readFrom 0 false 0 false [2; 2; 0]
    = (Ok (meta.KeySignature 2 true 2 false), []) /\
  meta.KeySignature_readFrom 0 false 0 false [2; 0xFD; 0]
    = (Ok (meta.KeySignature 3 true 3 true), []) /\
  meta.KeySignature_readFrom 0 false 0 false [2; 0; 1]
    = (Ok (meta.KeySignature 9 false 0 false), []).
Proof. repeat split; reflexivity. Qed.

(** C7. The signed byte [sf = 19] in major, FF 59 02 13 00: the
    product [19 * 7] is computed in [int8] and wraps to -123 before it
    is widened, so the decoder stores the key 9, where the formula of
    the claim gives [(19 * 7) mod 12 = 1]. *)
Theorem KeySignature_readFrom_sf_19 :
  meta.KeySignature_readFrom 0 false 0 false [2; 19; 0]
    = (Ok (meta.KeySignature 9 true 19 false), []) /\
  i8 (19 * 7) = -123 /\
  (19 * 7 - 0) mod 12 = 1.
Proof. repeat split; reflexivity. Qed.

(** * Further properties of the channel reader *)
Section ChannelDecoding.
Context {S : Type} `{ByteSource S}.
Implicit Types r : channel.reader S.

(** X1. A program change (0xC) or channel pressure (0xD) status takes
    exactly one data byte: [Read] returns the message with the channel of
    the low nibble and leaves the source right after that byte. *)
Theorem Read_one_byte_message r (arg : Z) (s1 : S) :
  channel.done r = false ->
  0 <= channel.status r < 256 ->
  channel.status r / 16 = 0xC \/ channel.status r / 16 = 0xD ->
  lib.ReadByte (channel.input r) = (Ok arg, s1) ->
  channel.Read r =
    (Ok (if channel.status r / 16 =? 0xC
         then channel.ProgramChange (channel.status r mod 16) arg
         else channel.AfterTouch (channel.status r mod 16) arg),
     channel.mkReader s1 (channel.status r) true (channel.readNoteOffPedantic r)).
Proof.
  intros Hd Hs Hn H1.
  unfold channel.Read. rewrite Hd, (ParseStatus_nibbles _ Hs), H1. simpl.
  set (typ := channel.status r / 16) in *. set (ch := channel.status r mod 16).
  clearbody typ ch.
  destruct Hn as [-> | ->]; reflexivity.
Qed.

(** X2. The decode table of the two-byte messages: for a status with
    high nibble 0x8, 0x9, 0xA, 0xB or 0xE and a source that delivers two
    bytes, [Read] returns the variant of the nibble with the channel of
    the low nibble and both bytes, except that a note-on with velocity 0
    is returned as [NoteOff], and that 0x8 gives [NoteOffPedantic] when
    the option is set. *)
Theorem Read_two_byte_message r (arg1 arg2 : Z) (s1 s2 : S) :
  channel.done r = false ->
  0 <= channel.status r < 256 ->
  In (channel.status r / 16) [0x8; 0x9; 0xA; 0xB; 0xE] ->
  lib.ReadByte (channel.input r) = (Ok arg1, s1) ->
  lib.ReadByte s1 = (Ok arg2, s2) ->
  channel.Read r =
    (Ok (let ch := channel.status r mod 16 in
         match channel.status r / 16 with
         | 0x8 => if channel.readNoteOffPedantic r
                  then channel.NoteOffPedantic ch arg1 arg2
                  else channel.NoteOff ch arg1
         | 0x9 => if arg2 =? 0 then channel.NoteOff ch arg1
                  else channel.NoteOn ch arg1 arg2
         | 0xA => channel.PolyphonicAfterTouch ch arg1 arg2
         | 0xB => channel.ControlChange ch arg1 arg2
         | _ => channel.PitchWheel ch arg1 arg2
         end),
     channel.mkReader s2 (channel.status r) true (channel.readNoteOffPedantic r)).
Proof.
  intros Hd Hs Hn H1 H2.
  unfold channel.Read. rewrite Hd, (ParseStatus_nibbles _ Hs), H1. simpl.
  set (typ := channel.status r / 16) in *. set (ch := channel.status r mod 16).
  clearbody typ ch. simpl in Hn.
  destruct Hn as [<- | [<- | [<- | [<- | [<- | []]]]]]; simpl; rewrite H2;
    unfold channel.getMsg2; simpl;
    try destruct (channel.readNoteOffPedantic r);
    try destruct (arg2 =? 0); reflexivity.
Qed.

(** X3. [Read] never returns a note-on with velocity 0, whatever the
    status byte, the options and the source. *)
Theorem Read_never_NoteOn_velocity_0 r (r' : channel.reader S) (ch key velocity : Z) :
  channel.Read r = (Ok (channel.NoteOn ch key velocity), r') ->
  velocity <> 0.
Proof.
  unfold channel.Read.
  destruct (channel.done r); [discriminate|].
  destruct (lib.ParseStatus (channel.status r)) as [typ c].
  destruct (lib.ReadByte (channel.input r)) as [[arg1|e|p] input1]; try discriminate.
  destruct ((typ =? channel.byteProgramChange) || (typ =? channel.byteChannelPressure)).
  - unfold channel.getMsg1.
    destruct (typ =? channel.byteProgramChange); [discriminate|].
    destruct (typ =? channel.byteChannelPressure); discriminate.
  - simpl. destruct (lib.ReadByte input1) as [[arg2|e|p] input2]; try discriminate.
    unfold channel.getMsg2. simpl.
    destruct (typ =? channel.byteNoteOff).
    { destruct (channel.readNoteOffPedantic r); discriminate. }
    destruct (typ =? channel.byteNoteOn).
    { simpl. destruct (arg2 =? 0) eqn:E; [discriminate|].
      intros Heq. injection Heq as _ _ <- _. lia. }
    destruct (typ =? channel.bytePolyphonicKeyPressure); [discriminate|].
    destruct (typ =? channel.byteControlChange); [discriminate|].
    destruct (typ =? channel.bytePitchWheel); discriminate.
Qed.

(** X4. When the source fails on the first data byte, [Read] returns
    that error before the status byte is looked at, and the reader is
    used up: the next call returns [io.EOF] and does not retry. *)
Theorem Read_first_byte_error r (e : error) (s1 : S) :
  channel.done r = false ->
  lib.ReadByte (channel.input r) = (Err e, s1) ->
  let r1 := channel.mkReader s1 (channel.status r) true (channel.readNoteOffPedantic r) in
  channel.Read r = (Err e, r1) /\ channel.Read r1 = (Err io_EOF, r1).
Proof.
  intros Hd H1 r1. split.
  - unfold channel.Read. rewrite Hd, H1.
    destruct (lib.ParseStatus (channel.status r)). reflexivity.
  - apply Read_done. reflexivity.
Qed.

(** X5. When the source fails on the second data byte of a status that
    is not a program change or channel pressure, [Read] returns that
    error, also for a status that is no channel message at all: the
    panic on such a status needs both bytes. *)
Theorem Read_second_byte_error r (arg1 : Z) (e : error) (s1 s2 : S) :
  channel.done r = false ->
  0 <= channel.status r < 256 ->
  channel.status r / 16 <> 0xC ->
  channel.status r / 16 <> 0xD ->
  lib.ReadByte (channel.input r) = (Ok arg1, s1) ->
  lib.ReadByte s1 = (Err e, s2) ->
  channel.Read r =
    (Err e, channel.mkReader s2 (channel.status r) true (channel.readNoteOffPedantic r)).
Proof.
  intros Hd Hs HC HD H1 H2.
  unfold channel.Read. rewrite Hd, (ParseStatus_nibbles _ Hs), H1. simpl.
  unfold channel.byteProgramChange, channel.byteChannelPressure.
  destruct (channel.status r / 16 =? 12) eqn:E12; [lia|].
  destruct (channel.status r / 16 =? 13) eqn:E13; [lia|]. simpl.
  rewrite H2. reflexivity.
Qed.

End ChannelDecoding.

Lemma Read_one_byte_message_witness :
  channel.Read (channel.NewReader [5; 64] 0xC3 []) =
    (Ok (channel.ProgramChange 3 5), channel.mkReader [64] 0xC3 true false).
Proof.
  apply (Read_one_byte_message (channel.NewReader [5; 64] 0xC3 []) 5 [64]).
  - reflexivity.
  - simpl. lia.
  - left. reflexivity.
  - reflexivity.
Defined.

Lemma Read_two_byte_message_witness :
  channel.Read (channel.NewReader [60; 0] 0x92 []) =
    (Ok (channel.NoteOff 2 60), channel.mkReader [] 0x92 true false).
Proof.
  apply (Read_two_byte_message (channel.NewReader [60; 0] 0x92 []) 60 0 [0] []).
  - reflexivity.
  - simpl. lia.
  - simpl. right. left. reflexivity.
  - reflexivity.
  - reflexivity.
Defined.

Lemma Read_never_NoteOn_velocity_0_witness : 100 <> 0.
Proof.
  apply (Read_never_NoteOn_velocity_0
           (channel.NewReader [60; 100] 0x92 []) (channel.mkReader [] 0x92 true false)
           2 60 100).
  reflexivity.
Defined.

Lemma Read_first_byte_error_witness :
  let r1 := channel.mkReader [] 0x92 true false in
  channel.Read (channel.NewReader [] 0x92 []) = (Err io_EOF, r1) /\
  channel.Read r1 = (Err io_EOF, r1).
Proof.
  apply (Read_first_byte_error (channel.NewReader [] 0x92 []) io_EOF []).
  - reflexivity.
  - reflexivity.
Defined.

Lemma Read_second_byte_error_witness :
  channel.Read (channel.NewReader [60] 0xF2 []) =
    (Err io_EOF, channel.mkReader [] 0xF2 true false).
Proof.
  apply (Read_second_byte_error (channel.NewReader [60] 0xF2 []) 60 io_EOF [] []).
  - reflexivity.
  - simpl. lia.
  - simpl. discriminate.
  - simpl. discriminate.
  - reflexivity.
  - reflexivity.
Defined.

(** * Further properties of the meta messages *)

(** ** The registry *)

(** The ids with a codec, read off the map byte by byte. *)
Lemma Dispatch_Some_iff (b : Z) :
  0 <= b < 256 ->
  (meta.Dispatch b <> None <-> In b registered_ids).
Proof.
  intros Hb.
  pose proof (forall_byte
    (fun b => Bool.eqb (match meta.Dispatch b with Some _ => true | None => false end)
                       (existsb (Z.eqb b) registered_ids))
    eq_refl b Hb) as Hc.
  cbv beta in Hc. apply Bool.eqb_prop in Hc.
  split.
  - intros Hne. destruct (meta.Dispatch b); [|congruence].
    symmetry in Hc. apply existsb_exists in Hc as (x & Hin & Hx).
    apply Z.eqb_eq in Hx. now subst.
  - intros Hin. destruct (meta.Dispatch b); [discriminate|].
    assert (existsb (Z.eqb b) registered_ids = true) as Ht
      by (apply existsb_exists; exists b; split; [exact Hin|apply Z.eqb_refl]).
    congruence.
Qed.

(** X6. [Dispatch] gives a codec for exactly fifteen type ids; every
    other byte gives [nil], and so does 0x7F, which is a key of the map
    with the value [nil]. *)
Theorem Dispatch_registered (b : Z) :
  0 <= b < 256 ->
  (meta.Dispatch b <> None <-> In b registered_ids).
Proof. intros Hb. split; apply (Dispatch_Some_iff b Hb). Qed.

Lemma Dispatch_registered_witness :
  meta.Dispatch 0x7F <> None <-> In 0x7F registered_ids.
Proof. apply (Dispatch_registered 0x7F). lia. Defined.


(** Case analysis of a decoder run that is known to have returned. *)
Ltac decoder_cases H :=
  repeat match type of H with
         | context [match ?x with _ => _ end] => destruct x eqn:?; try discriminate H
         end.

Section Registry.
Context {S : Type} `{ByteSource S}.


(** X8. [ReadFrom] never returns a message of a registered type: what
    it returns is an [Undefined] with the type id it was called with. *)
Theorem ReadFrom_returns_only_Undefined (typ : Z) (m : meta.Message) (rd rd' : S) :
  meta.ReadFrom typ rd = (Ok m, rd') ->
  exists data, m = meta.Undefined typ data.
Proof.
  rewrite ReadFrom_unfold.
  destruct (meta.Dispatch typ); [|discriminate].
  unfold meta.Undefined_readFrom, bind, ret. intros Hr.
  decoder_cases Hr. injection Hr as <- <-. eauto.
Qed.

End Registry.


Lemma ReadFrom_returns_only_Undefined_witness :
  exists data, meta.Undefined 0x51 [0x07; 0xA1; 0x20] = meta.Undefined 0x51 data.
Proof.
  apply (ReadFrom_returns_only_Undefined 0x51 _ [3; 0x07; 0xA1; 0x20] []).
  reflexivity.
Defined.

(** ** Length checks and error propagation *)
Section Lengths.
Context {S : Type} `{ByteSource S}.

(** X9. The six codecs that check the declared length: a length other
    than the expected one gives [UnexpectedMessageLengthError] and no
    value, for a shorter and for a longer length alike, and the source is
    left right after the length field, the payload unread. *)
Theorem fixed_length_mismatch (n : Z) (rd rd' : S) :
  lib.ReadVarLength rd = (Ok n, rd') ->
  (n <> 0 -> forall m, exists text,
     meta.endOfTrack_readFrom m rd = (Err (UnexpectedMessageLengthError text), rd')) /\
  (n <> 1 -> forall m, exists text,
     meta.MIDIPort_readFrom m rd = (Err (UnexpectedMessageLengthError text), rd')) /\
  (n <> 1 -> forall m, exists text,
     meta.MIDIChannel_readFrom m rd = (Err (UnexpectedMessageLengthError text), rd')) /\
  (n <> 3 -> forall m, exists text,
     meta.Tempo_readFrom m rd = (Err (UnexpectedMessageLengthError text), rd')) /\
  (n <> 4 -> forall num den, exists text,
     meta.TimeSignature_readFrom num den rd = (Err (UnexpectedMessageLengthError text), rd')) /\
  (n <> 2 -> forall k ma num fl, exists text,
     meta.KeySignature_readFrom k ma num fl rd = (Err (UnexpectedMessageLengthError text), rd')).
Proof.
  intros Hlen.
  repeat split; intros Hn; intros;
    unfold meta.endOfTrack_readFrom, meta.MIDIPort_readFrom, meta.MIDIChannel_readFrom,
      meta.Tempo_readFrom, meta.TimeSignature_readFrom, meta.KeySignature_readFrom, bind, fail;
    rewrite Hlen;
    match goal with
    | |- context [n =? ?k] => destruct (n =? k) eqn:E; [lia|]
    end; simpl; eauto.
Qed.

End Lengths.

Lemma fixed_length_mismatch_witness :
  exists text,
    meta.endOfTrack_readFrom true [2; 0; 0] = (Err (UnexpectedMessageLengthError text), [0; 0]).
Proof.
  refine (proj1 (fixed_length_mismatch 2 [2; 0; 0] [0; 0] _) _ true).
  - reflexivity.
  - discriminate.
Defined.

(** ** Panics *)
Section NoPanic.
Context {S : Type} `{ByteSource S}.
Hypothesis source_never_panics :
  forall (s s' : S) (p : panic_value), next_byte s <> (Panic p, s').

Lemma ReadByte_no_panic (s s' : S) (p : panic_value) :
  lib.ReadByte s <> (Panic p, s').
Proof. apply source_never_panics. Qed.

Lemma vlqDecode_no_panic (left : nat) :
  forall (acc : Z) (s s' : S) (p : panic_value),
    lib.vlqDecode left acc s <> (Panic p, s').
Proof.
  induction left as [|left IH]; intros acc s s' p; simpl.
  - discriminate.
  - unfold bind. destruct (lib.ReadByte s) as [[b|e|q] s1] eqn:E.
    + destruct (Z.land b 128 =? 0); [discriminate|apply IH].
    + discriminate.
    + exfalso. exact (ReadByte_no_panic _ _ _ E).
Qed.

Lemma ReadNBytes_no_panic (n : nat) :
  forall (s s' : S) (p : panic_value), lib.ReadNBytes n s <> (Panic p, s').
Proof.
  induction n as [|n IH]; intros s s' p; simpl.
  - discriminate.
  - unfold bind. destruct (lib.ReadByte s) as [[b|e|q] s1] eqn:E.
    + destruct (lib.ReadNBytes n s1) as [[bs|e|q] s2] eqn:E2.
      * discriminate.
      * discriminate.
      * exfalso. exact (IH _ _ _ E2).
    + discriminate.
    + exfalso. exact (ReadByte_no_panic _ _ _ E).
Qed.

Lemma ReadVarLength_no_panic (s s' : S) (p : panic_value) :
  lib.ReadVarLength s <> (Panic p, s').
Proof. apply vlqDecode_no_panic. Qed.

Lemma ReadText_no_panic (s s' : S) (p : panic_value) :
  lib.ReadText s <> (Panic p, s').
Proof.
  unfold lib.ReadText, lib.ReadVarLengthData, bind.
  destruct (lib.ReadVarLength s) as [[n|e|q] s1] eqn:E.
  - apply ReadNBytes_no_panic.
  - discriminate.
  - exfalso. exact (ReadVarLength_no_panic _ _ _ E).
Qed.

(** Case analysis of a decoder run, a panic of the reading functions
    excluded. *)
Ltac no_panic_cases :=
  repeat match goal with
         | |- context [match lib.ReadByte ?s with _ => _ end] =>
             let E := fresh "E" in
             destruct (lib.ReadByte s) as [[?|?|?] ?] eqn:E;
             [ | | exfalso; exact (ReadByte_no_panic _ _ _ E)]
         | |- context [match lib.ReadVarLength ?s with _ => _ end] =>
             let E := fresh "E" in
             destruct (lib.ReadVarLength s) as [[?|?|?] ?] eqn:E;
             [ | | exfalso; exact (ReadVarLength_no_panic _ _ _ E)]
         | |- context [match lib.ReadText ?s with _ => _ end] =>
             let E := fresh "E" in
             destruct (lib.ReadText s) as [[?|?|?] ?] eqn:E;
             [ | | exfalso; exact (ReadText_no_panic _ _ _ E)]
         | |- context [if ?c then _ else _] => destruct c eqn:?
         end;
  try discriminate.

(** X10. On a source that does not panic itself, the only codec that
    can panic is [Tempo], and only with the integer division by zero:
    every other failure of every codec is an error value. *)
Theorem readFrom_panics_only_in_Tempo
  (proto : meta.Message) (rd rd' : S) (p : panic_value) :
  meta.readFrom proto rd = (Panic p, rd') ->
  (exists m, proto = meta.Tempo m) /\ p = IntegerDivideByZero.
Proof.
  destruct proto; simpl;
    try (intros Hp; exfalso; revert Hp;
         unfold meta.endOfTrack_readFrom, meta.MIDIPort_readFrom,
           meta.MIDIChannel_readFrom, meta.SequenceNumber_readFrom,
           meta.TimeSignature_readFrom, meta.KeySignature_readFrom,
           meta.Undefined_readFrom, meta.DevicePort_readFrom,
           meta.Text_readFrom, meta.Copyright_readFrom, meta.Sequence_readFrom,
           meta.TrackInstrument_readFrom, meta.Marker_readFrom, meta.Lyric_readFrom,
           meta.CuePoint_readFrom, meta.ProgramName_readFrom,
           lib.ReadUint16, bind, ret, fail;
         fold (@lib.ReadText S _);
         no_panic_cases; fail).
  unfold meta.Tempo_readFrom, lib.ReadUint24, bind, ret, fail, lift, go_div.
  no_panic_cases.
  intros Hp. injection Hp as <- _. split; [eauto|reflexivity].
Qed.

End NoPanic.

Lemma list_source_never_panics (s s' : list Z) (p : panic_value) :
  next_byte s <> (Panic p, s').
Proof. destruct s; discriminate. Qed.

Lemma readFrom_panics_only_in_Tempo_witness :
  (exists m, meta.Tempo 0 = meta.Tempo m) /\ IntegerDivideByZero = IntegerDivideByZero.
Proof.
  apply (readFrom_panics_only_in_Tempo list_source_never_panics
           (meta.Tempo 0) [3; 0; 0; 0] [] IntegerDivideByZero).
  reflexivity.
Defined.

(** ** Round trips through [Raw] *)

(** The bit operations of the VLQ on a group of seven bits. *)
Lemma vlq_group_bits (g : Z) :
  0 <= g < 128 ->
  Z.lor g 0x80 = g + 128 /\ Z.land (g + 128) 0x7F = g /\
  Z.land (g + 128) 0x80 = 128 /\ Z.land g 0x80 = 0 /\ Z.land g 0x7F = g.
Proof.
  intros Hg.
  pose proof (forall_byte
    (fun g => if g <? 128
              then (Z.lor g 0x80 =? g + 128) && (Z.land (g + 128) 0x7F =? g) &&
                   (Z.land (g + 128) 0x80 =? 128) && (Z.land g 0x80 =? 0) &&
                   (Z.land g 0x7F =? g)
              else true)
    eq_refl g ltac:(lia)) as Hb.
  cbv beta in Hb. destruct (g <? 128) eqn:E; [|lia].
  repeat (apply andb_prop in Hb as [Hb ?]).
  repeat split; now apply Z.eqb_eq.
Qed.

Lemma land_127_mod (x : Z) : Z.land x 0x7F = x mod 128.
Proof. change 0x7F with (Z.ones 7). now rewrite Z.land_ones by lia. Qed.

Lemma shr_7_div (x : Z) : shr x 7 = x / 128.
Proof. unfold shr. now rewrite Z.shiftr_div_pow2 by lia. Qed.

Lemma lor_128_mod (x : Z) : Z.lor (x mod 128) 0x80 = x mod 128 + 128.
Proof. apply vlq_group_bits. apply Z.mod_pos_bound. lia. Qed.

(** The bytes of [VlqEncode] for a value below 2^28: one to four
    groups. *)
Lemma VlqEncode_groups (v : Z) :
  0 <= v < 268435456 ->
  lib.VlqEncode v =
    if v / 128 =? 0 then [v mod 128]
    else if v / 128 / 128 =? 0 then [(v / 128) mod 128 + 128; v mod 128]
    else if v / 128 / 128 / 128 =? 0
         then [(v / 128 / 128) mod 128 + 128; (v / 128) mod 128 + 128; v mod 128]
         else [(v / 128 / 128 / 128) mod 128 + 128; (v / 128 / 128) mod 128 + 128;
               (v / 128) mod 128 + 128; v mod 128].
Proof.
  intros Hv. unfold lib.VlqEncode. cbn [lib.vlqGroups].
  rewrite !shr_7_div, !land_127_mod, !lor_128_mod.
  destruct (v / 128 =? 0); [reflexivity|].
  destruct (v / 128 / 128 =? 0); [reflexivity|].
  destruct (v / 128 / 128 / 128 =? 0); [reflexivity|].
  destruct (v / 128 / 128 / 128 / 128 =? 0) eqn:E; [reflexivity|].
  apply Z.eqb_neq in E. exfalso. apply E.
  Z.to_euclidean_division_equations; lia.
Qed.

Lemma vlqDecode_continue (left : nat) (acc g : Z) (rest : list Z) :
  0 <= g < 128 ->
  lib.vlqDecode (S left) acc ((g + 128) :: rest) = lib.vlqDecode left (acc * 128 + g) rest.
Proof.
  intros Hg. destruct (vlq_group_bits g Hg) as (_ & H7 & H8 & _).
  cbn [lib.vlqDecode]. unfold bind, lib.ReadByte. cbn [next_byte list_source].
  now rewrite H7, H8.
Qed.

Lemma vlqDecode_last (left : nat) (acc g : Z) (rest : list Z) :
  0 <= g < 128 ->
  lib.vlqDecode (S left) acc (g :: rest) = (Ok (acc * 128 + g), rest).
Proof.
  intros Hg. destruct (vlq_group_bits g Hg) as (_ & _ & _ & H8 & H7).
  cbn [lib.vlqDecode]. unfold bind, lib.ReadByte. cbn [next_byte list_source].
  now rewrite H7, H8.
Qed.

(** The length that [metaMessage.Bytes] writes is the length that the
    decoders read back, for every length below 2^28. *)
Lemma ReadVarLength_VlqEncode (v : Z) (rest : list Z) :
  0 <= v < 268435456 ->
  lib.ReadVarLength (lib.VlqEncode v ++ rest) = (Ok v, rest).
Proof.
  intros Hv. rewrite (VlqEncode_groups v Hv). unfold lib.ReadVarLength.
  assert (Hm : forall x, 0 <= x mod 128 < 128) by (intros x; apply Z.mod_pos_bound; lia).
  destruct (v / 128 =? 0) eqn:E1; [|destruct (v / 128 / 128 =? 0) eqn:E2;
    [|destruct (v / 128 / 128 / 128 =? 0) eqn:E3]];
    simpl app;
    rewrite ?vlqDecode_continue by apply Hm;
    rewrite vlqDecode_last by apply Hm;
    f_equal; f_equal;
    rewrite ?Z.eqb_eq, ?Z.eqb_neq in *;
    Z.to_euclidean_division_equations; lia.
Qed.

Lemma ReadNBytes_app (data rest : list Z) :
  lib.ReadNBytes (length data) (data ++ rest) = (Ok data, rest).
Proof.
  induction data as [|b data IH]; simpl; [reflexivity|].
  unfold bind, lib.ReadByte in *. simpl. now rewrite IH.
Qed.

Lemma metaMessage_Bytes_layout (Typ : Z) (Data : list Z) :
  meta.metaMessage_Bytes Typ Data =
  0xFF :: Typ :: lib.VlqEncode (u32 (Z.of_nat (length Data))) ++ Data.
Proof.
  unfold meta.metaMessage_Bytes.
  destruct (Z.of_nat (length Data) =? 0) eqn:E; cbn [negb].
  - apply Z.eqb_eq in E. destruct Data; [|simpl in E; lia].
    now rewrite app_nil_r.
  - now rewrite <- app_assoc.
Qed.

(** Reading back the payload that [metaMessage.Bytes] has written, the
    bytes FF and type id taken off. *)
Lemma ReadVarLengthData_Bytes (Typ : Z) (Data rest : list Z) :
  Z.of_nat (length Data) < 268435456 ->
  lib.ReadVarLengthData (drop 2 (meta.metaMessage_Bytes Typ Data) ++ rest) = (Ok Data, rest).
Proof.
  intros Hlen. rewrite metaMessage_Bytes_layout. simpl drop. rewrite drop_0.
  unfold lib.ReadVarLengthData, bind. rewrite <- app_assoc.
  unfold u32. rewrite Z.mod_small by lia.
  rewrite ReadVarLength_VlqEncode by lia.
  rewrite Nat2Z.id. apply ReadNBytes_app.
Qed.

(** X11. The text types, except [DevicePort] and [ProgramName], and
    [Undefined] round-trip: a value with a payload shorter than 2^28
    bytes, encoded by [Raw] and decoded by the codec of its type from the
    bytes after FF and the type id, comes back as it was, with the source
    left at the end of the event. The value of the receiver is of no
    account. *)
Theorem text_and_Undefined_roundtrip (data m0 rest : list Z) (typ : Z) :
  Z.of_nat (length data) < 268435456 ->
  meta.Text_readFrom m0 (drop 2 (meta.Text_Raw data) ++ rest) = (Ok (meta.Text data), rest) /\
  meta.Copyright_readFrom m0 (drop 2 (meta.Copyright_Raw data) ++ rest)
    = (Ok (meta.Copyright data), rest) /\
  meta.Sequence_readFrom m0 (drop 2 (meta.Sequence_Raw data) ++ rest)
    = (Ok (meta.Sequence data), rest) /\
  meta.TrackInstrument_readFrom m0 (drop 2 (meta.TrackInstrument_Raw data) ++ rest)
    = (Ok (meta.TrackInstrument data), rest) /\
  meta.Marker_readFrom m0 (drop 2 (meta.Marker_Raw data) ++ rest)
    = (Ok (meta.Marker data), rest) /\
  meta.Lyric_readFrom m0 (drop 2 (meta.Lyric_Raw data) ++ rest) = (Ok (meta.Lyric data), rest) /\
  meta.CuePoint_readFrom m0 (drop 2 (meta.CuePoint_Raw data) ++ rest)
    = (Ok (meta.CuePoint data), rest) /\
  meta.Undefined_readFrom typ m0 (drop 2 (meta.Undefined_Raw typ data) ++ rest)
    = (Ok (meta.Undefined typ data), rest).
Proof.
  intros Hlen.
  repeat split;
    unfold meta.Text_readFrom, meta.Copyright_readFrom, meta.Sequence_readFrom,
      meta.TrackInstrument_readFrom, meta.Marker_readFrom, meta.Lyric_readFrom,
      meta.CuePoint_readFrom, meta.Undefined_readFrom,
      meta.Text_Raw, meta.Copyright_Raw, meta.Sequence_Raw, meta.TrackInstrument_Raw,
      meta.Marker_Raw, meta.Lyric_Raw, meta.CuePoint_Raw, meta.Undefined_Raw,
      lib.ReadText, bind;
    rewrite (ReadVarLengthData_Bytes _ data rest Hlen); reflexivity.
Qed.

Lemma text_and_Undefined_roundtrip_witness :
  meta.Text_readFrom [] (drop 2 (meta.Text_Raw [97; 98; 99]) ++ [0; 0xFF])
    = (Ok (meta.Text [97; 98; 99]), [0; 0xFF]).
Proof.
  refine (proj1 (text_and_Undefined_roundtrip [97; 98; 99] [] [0; 0xFF] 0 _)).
  simpl. lia.
Defined.

(** X12. The types with a fixed payload round-trip through [Raw]:
    [EndOfTrack], a [MIDIPort] or [MIDIChannel] with any byte, and a
    [SequenceNumber] with any [uint16], which [Raw] always writes with
    the length 2, the number 0 included. *)
Theorem fixed_size_roundtrip (b : bool) (port ch n m0 : Z) (rest : list Z) :
  0 <= n < 65536 ->
  meta.endOfTrack_readFrom b (drop 2 (meta.endOfTrack_Raw b) ++ rest)
    = (Ok (meta.endOfTrack b), rest) /\
  meta.MIDIPort_readFrom m0 (drop 2 (meta.MIDIPort_Raw port) ++ rest)
    = (Ok (meta.MIDIPort port), rest) /\
  meta.MIDIChannel_readFrom m0 (drop 2 (meta.MIDIChannel_Raw ch) ++ rest)
    = (Ok (meta.MIDIChannel ch), rest) /\
  meta.SequenceNumber_Raw n = [0xFF; 0x00; 2; n / 256; n mod 256] /\
  meta.SequenceNumber_readFrom m0 (drop 2 (meta.SequenceNumber_Raw n) ++ rest)
    = (Ok (meta.SequenceNumber n), rest).
Proof.
  intros Hn.
  assert (Hraw : meta.SequenceNumber_Raw n = [0xFF; 0x00; 2; n / 256; n mod 256]).
  { unfold meta.SequenceNumber_Raw, shr.
    rewrite Z.shiftr_div_pow2 by lia.
    change 0xFF with (Z.ones 8). rewrite Z.land_ones by lia. reflexivity. }
  repeat split; try reflexivity; [exact Hraw|].
  rewrite Hraw. cbn [drop app].
  unfold meta.SequenceNumber_readFrom, lib.ReadUint16, bind, lib.ReadByte, ret.
  cbn [next_byte list_source Z.eqb].
  replace (n / 256 * 256 + n mod 256) with n
    by (Z.to_euclidean_division_equations; lia).
  reflexivity.
Qed.

Lemma fixed_size_roundtrip_witness :
  meta.SequenceNumber_readFrom 0 (drop 2 (meta.SequenceNumber_Raw 0x1234) ++ [0xFF])
    = (Ok (meta.SequenceNumber 0x1234), [0xFF]).
Proof.
  refine (proj2 (proj2 (proj2 (proj2
            (fixed_size_roundtrip true 0 0 0x1234 0 [0xFF] _))))).
  lia.
Defined.

(** ** Key signatures *)

(** The pitch class is a pitch class: for whatever arguments,
    [keyFromSharpsOrFlats] returns a value from 0 to 11. *)
Lemma keyFromSharpsOrFlats_range (sharpsOrFlats mode : Z) :
  0 <= meta.keyFromSharpsOrFlats sharpsOrFlats mode <= 11.
Proof.
  unfold meta.keyFromSharpsOrFlats.
  set (tmp := if mode =? meta.minorMode then i8 (sharpsOrFlats * 7) - 3
              else i8 (sharpsOrFlats * 7)).
  destruct (clampOctave_loop_exits (Z.to_nat (- tmp)) tmp ltac:(lia)) as [Hpos _].
  rewrite Z.rem_mod_nonneg by lia.
  pose proof (Z.mod_pos_bound (meta.clampOctave_loop (Z.to_nat (- tmp)) tmp) 12 ltac:(lia)).
  unfold u8. rewrite Z.mod_small by lia. lia.
Qed.

(** The accidentals of a signed byte, read as the decoder reads them. *)
Lemma accidentals_of_byte (b : Z) :
  0 <= b < 256 ->
  let sf := if b <? 128 then b else b - 256 in
  i8 b = sf /\
  u8 (if i8 b <? 0 then i8 (i8 b * -1) else i8 b) = Z.abs sf.
Proof.
  intros Hb sf.
  pose proof (forall_byte
    (fun b => let sf := if b <? 128 then b else b - 256 in
              (i8 b =? sf) &&
              (u8 (if i8 b <? 0 then i8 (i8 b * -1) else i8 b) =? Z.abs sf))
    eq_refl b Hb) as Hc.
  cbv beta zeta in Hc. apply andb_prop in Hc as [H1 H2].
  split; now apply Z.eqb_eq.
Qed.

(** The value that the decoder builds from the two payload bytes. *)
Lemma KeySignature_readFrom_payload
  (k0 : Z) (ma0 : bool) (n0 : Z) (f0 : bool) (b mode : Z) (rd rest : list Z) :
  lib.ReadVarLength rd = (Ok 2, b :: mode :: rest) ->
  0 <= b < 256 ->
  let sf := if b <? 128 then b else b - 256 in
  meta.KeySignature_readFrom k0 ma0 n0 f0 rd =
    (Ok (meta.KeySignature (meta.keyFromSharpsOrFlats (i8 b) mode)
           (mode =? 0) (Z.abs sf) (sf <? 0)), rest).
Proof.
  intros Hlen Hb sf.
  destruct (accidentals_of_byte b Hb) as [Hsf Hnum].
  unfold meta.KeySignature_readFrom, bind. rewrite Hlen.
  unfold lib.ReadByte, ret. cbn [negb Z.eqb Pos.eqb next_byte list_source].
  rewrite Hnum. fold sf. rewrite Hsf. reflexivity.
Qed.

(** X13. What a decoded key signature holds: for the payload bytes
    [b] and [mode] after the length 2, with [sf] the byte [b] read as a
    signed byte, the value has a key from 0 to 11, the major flag set for
    [mode = 0] only, the count [|sf|] (128 for [sf = -128]) and the flat
    flag set for a negative [sf]. *)
Theorem KeySignature_readFrom_fields
  (k0 : Z) (ma0 : bool) (n0 : Z) (f0 : bool) (b mode : Z) (rd rest : list Z) :
  lib.ReadVarLength rd = (Ok 2, b :: mode :: rest) ->
  0 <= b < 256 ->
  let sf := if b <? 128 then b else b - 256 in
  exists key : Z,
    meta.KeySignature_readFrom k0 ma0 n0 f0 rd =
      (Ok (meta.KeySignature key (mode =? 0) (Z.abs sf) (sf <? 0)), rest) /\
    0 <= key <= 11.
Proof.
  intros Hlen Hb sf.
  exists (meta.keyFromSharpsOrFlats (i8 b) mode).
  split; [|apply keyFromSharpsOrFlats_range].
  exact (KeySignature_readFrom_payload k0 ma0 n0 f0 b mode rd rest Hlen Hb).
Qed.

Lemma KeySignature_readFrom_fields_witness :
  exists key : Z,
    meta.KeySignature_readFrom 0 false 0 false [2; 0xFD; 1] =
      (Ok (meta.KeySignature key false 3 true), []) /\
    0 <= key <= 11.
Proof.
  apply (KeySignature_readFrom_fields 0 false 0 false 0xFD 1 [2; 0xFD; 1] []).
  - reflexivity.
  - lia.
Defined.

(** X14. [Note] panics with "unreachable" exactly for a key outside
    0..11; for the twelve pitch classes it returns a name. *)
Theorem KeySignature_Note_unreachable (Key : Z) (IsMajor : bool) (Num : Z) (IsFlat : bool) :
  meta.KeySignature_Note Key IsMajor Num IsFlat = meta.Panics "unreachable"
  <-> ~ (0 <= Key <= 11).
Proof.
  split.
  - intros Hp Hk.
    assert (Hc : In Key [0; 1; 2; 3; 4; 5; 6; 7; 8; 9; 10; 11]) by (simpl; lia).
    simpl in Hc.
    repeat (destruct Hc as [<- | Hc]; [destruct IsFlat; discriminate Hp|]).
    destruct Hc.
  - intros Hk. unfold meta.KeySignature_Note, meta.degreeC, meta.degreeD, meta.degreeE,
      meta.degreeF, meta.degreeG, meta.degreeA, meta.degreeB, meta.degreeCs,
      meta.degreeDs, meta.degreeFs, meta.degreeGs, meta.degreeAs.
    repeat match goal with
           | |- context [Key =? ?c] => destruct (Key =? c) eqn:?; [lia|]
           end.
    reflexivity.
Qed.

(** X15. [Note] and [Text] never panic on a key signature that the
    decoder has returned, whatever the source and its bytes. *)
Theorem decoded_KeySignature_has_a_name {S : Type} `{ByteSource S}
  (k0 : Z) (ma0 : bool) (n0 : Z) (f0 : bool) (rd rd' : S)
  (Key : Z) (IsMajor : bool) (Num : Z) (IsFlat : bool) :
  meta.KeySignature_readFrom k0 ma0 n0 f0 rd
    = (Ok (meta.KeySignature Key IsMajor Num IsFlat), rd') ->
  exists note : string,
    meta.KeySignature_Note Key IsMajor Num IsFlat = meta.Returns note /\
    meta.KeySignature_Text Key IsMajor Num IsFlat
      = meta.Returns (note +:+ (if IsMajor then " maj." else " min.")).
Proof.
  intros Hr.
  assert (Hk : 0 <= Key <= 11).
  { unfold meta.KeySignature_readFrom, bind, ret, fail in Hr.
    decoder_cases Hr; injection Hr as <- _ _ _ _;
      apply keyFromSharpsOrFlats_range. }
  unfold meta.KeySignature_Text.
  destruct (meta.KeySignature_Note Key IsMajor Num IsFlat) as [note|message] eqn:E.
  - exists note. split; reflexivity.
  - exfalso.
    assert (Hc : In Key [0; 1; 2; 3; 4; 5; 6; 7; 8; 9; 10; 11]) by (simpl; lia).
    simpl in Hc.
    repeat (destruct Hc as [<- | Hc]; [destruct IsFlat; discriminate E|]).
    destruct Hc.
Qed.

Lemma decoded_KeySignature_has_a_name_witness :
  exists note : string,
    meta.KeySignature_Note 3 true 3 true = meta.Returns note /\
    meta.KeySignature_Text 3 true 3 true = meta.Returns (note +:+ " maj.").
Proof.
  apply (decoded_KeySignature_has_a_name 0 false 0 false [2; 0xFD; 0] []).
  reflexivity.
Defined.

(** X16. Encoding a decoded key signature gives back the event: for
    every byte [b] and mode byte, the value decoded from the payload
    [b], [mode] is encoded by [Raw] as FF 59 02 [b] and the mode byte 0
    for [mode = 0] and 1 otherwise, so that the bytes are the same for
    the modes 0 and 1, the two the format defines. *)
Theorem KeySignature_Raw_of_decoded
  (k0 : Z) (ma0 : bool) (n0 : Z) (f0 : bool) (b mode : Z) (rest : list Z) :
  0 <= b < 256 ->
  exists (Key : Z) (IsMajor : bool) (Num : Z) (IsFlat : bool),
    meta.KeySignature_readFrom k0 ma0 n0 f0 (2 :: b :: mode :: rest)
      = (Ok (meta.KeySignature Key IsMajor Num IsFlat), rest) /\
    meta.KeySignature_Raw Key IsMajor Num IsFlat
      = [0xFF; 0x59; 2; b; if mode =? 0 then 0 else 1].
Proof.
  intros Hb.
  pose proof (KeySignature_readFrom_payload k0 ma0 n0 f0 b mode
                (2 :: b :: mode :: rest) rest eq_refl Hb) as Hr.
  cbv zeta in Hr.
  eexists _, _, _, _. split; [exact Hr|].
  pose proof (forall_byte
    (fun b => let sf := if b <? 128 then b else b - 256 in
              u8 (if sf <? 0 then i8 (i8 (Z.abs sf) * -1) else i8 (Z.abs sf)) =? b)
    eq_refl b Hb) as Hsf.
  cbv beta zeta in Hsf. apply Z.eqb_eq in Hsf.
  unfold meta.KeySignature_Raw.
  set (sf := if b <? 128 then b else b - 256) in *.
  rewrite metaMessage_Bytes_layout. cbn [length].
  change (lib.VlqEncode (u32 (Z.of_nat 2))) with [2]. cbn [app].
  unfold meta.byteKeySignature. repeat f_equal.
  - destruct (sf <? 0); exact Hsf.
  - destruct (mode =? 0); reflexivity.
Qed.

Lemma KeySignature_Raw_of_decoded_witness :
  exists (Key : Z) (IsMajor : bool) (Num : Z) (IsFlat : bool),
    meta.KeySignature_readFrom 0 false 0 false [2; 0xFD; 0]
      = (Ok (meta.KeySignature Key IsMajor Num IsFlat), []) /\
    meta.KeySignature_Raw Key IsMajor Num IsFlat = [0xFF; 0x59; 2; 0xFD; 0].
Proof.
  apply (KeySignature_Raw_of_decoded 0 false 0 false 0xFD 0 []). lia.
Defined.

(** ** Time signature denominators *)

(** X17. [dec2binDenom] rounds to a power of two: for a denominator
    [dec] from 1 to 255 it returns the exponent [e], from 0 to 8, with
    [3/4 * 2^e <= dec < 3/2 * 2^e]. A power of two gets its own exponent,
    3 gets the exponent of 4, 6 and 7 that of 8, and 192 to 255 the
    exponent 8. 0 is given the exponent 0. *)
Theorem dec2binDenom_nearest_power (dec : Z) :
  1 <= dec < 256 ->
  let e := meta.dec2binDenom dec in
  0 <= e <= 8 /\ 3 * 2 ^ e <= 4 * dec < 6 * 2 ^ e /\ meta.dec2binDenom 0 = 0.
Proof.
  intros Hd e.
  pose proof (forall_byte
    (fun dec => if 1 <=? dec
                then let e := meta.dec2binDenom dec in
                     (0 <=? e) && (e <=? 8) && (3 * 2 ^ e <=? 4 * dec) &&
                     (4 * dec <? 6 * 2 ^ e)
                else true)
    eq_refl dec ltac:(lia)) as Hc.
  cbv beta zeta in Hc. fold e in Hc.
  destruct (1 <=? dec) eqn:E; [|lia].
  repeat (apply andb_prop in Hc as [Hc ?]).
  repeat split; try reflexivity; lia.
Qed.

Lemma dec2binDenom_nearest_power_witness :
  let e := meta.dec2binDenom 6 in
  0 <= e <= 8 /\ 3 * 2 ^ e <= 4 * 6 < 6 * 2 ^ e /\ meta.dec2binDenom 0 = 0.
Proof. apply (dec2binDenom_nearest_power 6). lia. Defined.

(** X18. [bin2decDenom] gives the power of two for every exponent
    from 0 to 7, the exponent 0 included, and [dec2binDenom] is its
    inverse there. *)
Theorem bin2decDenom_power (bin : Z) :
  0 <= bin <= 7 ->
  meta.bin2decDenom bin = 2 ^ bin /\
  meta.dec2binDenom (meta.bin2decDenom bin) = bin.
Proof.
  intros Hb.
  assert (Hc : In bin [0; 1; 2; 3; 4; 5; 6; 7]) by (simpl; lia).
  simpl in Hc.
  repeat (destruct Hc as [<- | Hc]; [split; reflexivity|]).
  destruct Hc.
Qed.

Lemma bin2decDenom_power_witness :
  meta.bin2decDenom 0 = 2 ^ 0 /\ meta.dec2binDenom (meta.bin2decDenom 0) = 0.
Proof. apply (bin2decDenom_power 0). lia. Defined.

(** X19. Encoding and decoding a time signature keeps the numerator
    and changes a denominator that is no power of two: for a denominator
    from 2 to 191 the result is the power of two [d] with
    [3/4 * d <= denominator < 3/2 * d], the denominator itself when it
    is a power of two; for a denominator from 192 to 255 the result is
    0. *)
Theorem TimeSignature_roundtrip_rounds (num denom : Z) :
  2 <= denom < 256 ->
  exists d : Z,
    TimeSignature_roundtrip num denom = (Ok (meta.TimeSignature num d), []) /\
    (denom < 192 -> d = 2 ^ meta.dec2binDenom denom /\ 3 * d <= 4 * denom < 6 * d) /\
    (192 <= denom -> d = 0).
Proof.
  intros Hd.
  pose proof (forall_byte
    (fun denom => if 2 <=? denom
                  then let e := meta.dec2binDenom denom in
                       let d := shl8 2 (u8 (e - 1)) in
                       if denom <? 192
                       then (d =? 2 ^ e) && (3 * d <=? 4 * denom) && (4 * denom <? 6 * d)
                       else d =? 0
                  else true)
    eq_refl denom ltac:(lia)) as Hc.
  cbv beta zeta in Hc.
  destruct (2 <=? denom) eqn:E; [|lia].
  exists (shl8 2 (u8 (meta.dec2binDenom denom - 1))).
  split; [|split].
  - unfold TimeSignature_roundtrip. rewrite TimeSignature_Raw_bytes. reflexivity.
  - intros Hlt. destruct (denom <? 192) eqn:E2; [|lia].
    repeat (apply andb_prop in Hc as [Hc ?]).
    apply Z.eqb_eq in Hc. rewrite <- Hc. lia.
  - intros Hge. destruct (denom <? 192) eqn:E2; [lia|].
    now apply Z.eqb_eq.
Qed.

Lemma TimeSignature_roundtrip_rounds_witness :
  exists d : Z,
    TimeSignature_roundtrip 7 6 = (Ok (meta.TimeSignature 7 d), []) /\
    (6 < 192 -> d = 2 ^ meta.dec2binDenom 6 /\ 3 * d <= 4 * 6 < 6 * d) /\
    (192 <= 6 -> d = 0).
Proof. apply (TimeSignature_roundtrip_rounds 7 6). lia. Defined.

(** X20. Encoding a decoded time signature: for the payload bytes
    [n], [e], [cc], [bb], [Raw] of the decoded value is FF 58 04, the
    numerator [n], the exponent [e] when it is at most 7 and 0 above
    that, and the bytes 8, 8 whatever [cc] and [bb] were. *)
Theorem TimeSignature_Raw_of_decoded (n0 d0 numerator e cc bb : Z) (rest : list Z) :
  0 <= e < 256 ->
  exists Denominator : Z,
    meta.TimeSignature_readFrom n0 d0 (4 :: numerator :: e :: cc :: bb :: rest)
      = (Ok (meta.TimeSignature numerator Denominator), rest) /\
    meta.TimeSignature_Raw numerator Denominator
      = [0xFF; 0x58; 4; numerator; if e <=? 7 then e else 0; 8; 8].
Proof.
  intros He.
  exists (shl8 2 (u8 (e - 1))). split; [reflexivity|].
  rewrite TimeSignature_Raw_bytes.
  pose proof (forall_byte
    (fun e => meta.dec2binDenom (shl8 2 (u8 (e - 1))) =? (if e <=? 7 then e else 0))
    eq_refl e He) as Hc.
  cbv beta in Hc. apply Z.eqb_eq in Hc. rewrite Hc. reflexivity.
Qed.

Lemma TimeSignature_Raw_of_decoded_witness :
  exists Denominator : Z,
    meta.TimeSignature_readFrom 0 0 [4; 6; 3; 36; 8]
      = (Ok (meta.TimeSignature 6 Denominator), []) /\
    meta.TimeSignature_Raw 6 Denominator = [0xFF; 0x58; 4; 6; 3; 8; 8].
Proof. apply (TimeSignature_Raw_of_decoded 0 0 6 3 36 8 []). lia. Defined.

(** ** Tempo *)

(** X21. Decoding a tempo: a payload of three bytes that are not all
    zero gives the beats per minute [60000000 / us], [us] the big-endian
    value of the three bytes, and the result lies between 3 and
    60000000. *)
Theorem Tempo_readFrom_bpm (m b0 b1 b2 : Z) (rd rest : list Z) :
  lib.ReadVarLength rd = (Ok 3, b0 :: b1 :: b2 :: rest) ->
  0 <= b0 < 256 -> 0 <= b1 < 256 -> 0 <= b2 < 256 ->
  b0 * 65536 + b1 * 256 + b2 <> 0 ->
  exists bpm : Z,
    meta.Tempo_readFrom m rd = (Ok (meta.Tempo bpm), rest) /\
    bpm = 60000000 / (b0 * 65536 + b1 * 256 + b2) /\
    3 <= bpm <= 60000000.
Proof.
  intros Hlen H0 H1 H2 Hnz.
  exists (60000000 / (b0 * 65536 + b1 * 256 + b2)).
  split; [|split; [reflexivity|]].
  - unfold meta.Tempo_readFrom, bind. rewrite Hlen.
    unfold lib.ReadUint24, bind, lib.ReadByte, ret, lift, go_div.
    cbn [negb Z.eqb Pos.eqb next_byte list_source].
    destruct (b0 * 65536 + b1 * 256 + b2 =? 0) eqn:E; [lia|reflexivity].
  - set (us := b0 * 65536 + b1 * 256 + b2) in *.
    assert (Hus : 1 <= us <= 16777215) by lia.
    split.
    + apply Z.div_le_lower_bound; lia.
    + apply Z.div_le_upper_bound; lia.
Qed.

Lemma Tempo_readFrom_bpm_witness :
  exists bpm : Z,
    meta.Tempo_readFrom 0 [3; 0x07; 0xA1; 0x20] = (Ok (meta.Tempo bpm), []) /\
    bpm = 60000000 / (0x07 * 65536 + 0xA1 * 256 + 0x20) /\
    3 <= bpm <= 60000000.
Proof.
  apply (Tempo_readFrom_bpm 0 0x07 0xA1 0x20 [3; 0x07; 0xA1; 0x20] []);
    try lia.
  reflexivity.
Defined.

(** A length below 128 is one byte of the event. *)
Lemma ReadVarLength_one_byte (n : Z) (rest : list Z) :
  0 <= n < 128 ->
  lib.ReadVarLength (n :: rest) = (Ok n, rest).
Proof.
  intros Hn. unfold lib.ReadVarLength. rewrite vlqDecode_last by exact Hn.
  reflexivity.
Qed.

(** The bytes of [big.Int.Bytes] for a value of at most three bytes. *)
Lemma big_Bytes_24 (c : Z) :
  0 <= c <= 0xFFFFFF ->
  meta.big_Bytes c =
    if c =? 0 then []
    else if c / 256 =? 0 then [c mod 256]
    else if c / 256 / 256 =? 0 then [(c / 256) mod 256; c mod 256]
    else [(c / 256 / 256) mod 256; (c / 256) mod 256; c mod 256].
Proof.
  intros Hc. unfold meta.big_Bytes. cbn [meta.big_Bytes_loop].
  destruct (c =? 0); [reflexivity|].
  destruct (c / 256 =? 0); [reflexivity|].
  destruct (c / 256 / 256 =? 0); [reflexivity|].
  destruct (c / 256 / 256 / 256 =? 0) eqn:E; [reflexivity|].
  apply Z.eqb_neq in E. exfalso. apply E.
  Z.to_euclidean_division_equations; lia.
Qed.

(** X22. The payload of [Tempo.Raw]: whatever number of microseconds
    the conversion from [float64] has given, the event is FF 51 03
    followed by the three big-endian bytes of that number, 0xFFFFFF in
    the place of a larger one, with zero bytes in front of a short one.
    The decoder reads the event back as [60000000 / c] beats per minute,
    [c] the number written, and panics when [c] is 0. *)
Theorem Tempo_Raw_payload (muSec_of : Z -> Z) (m m0 : Z) (rest : list Z) :
  0 <= muSec_of m ->
  let c := Z.min (muSec_of m) 0xFFFFFF in
  meta.Tempo_Raw muSec_of m = [0xFF; 0x51; 3; c / 65536; (c / 256) mod 256; c mod 256] /\
  meta.Tempo_readFrom m0 (drop 2 (meta.Tempo_Raw muSec_of m) ++ rest) =
    (if c =? 0 then Panic IntegerDivideByZero else Ok (meta.Tempo (60000000 / c)), rest).
Proof.
  intros Hq c.
  assert (Hc : 0 <= c <= 0xFFFFFF) by (subst c; lia).
  assert (Hraw : meta.Tempo_Raw muSec_of m =
                 [0xFF; 0x51; 3; c / 65536; (c / 256) mod 256; c mod 256]).
  { unfold meta.Tempo_Raw.
    replace (if 0xFFFFFF <? muSec_of m then 0xFFFFFF else muSec_of m) with c
      by (subst c; destruct (0xFFFFFF <? muSec_of m) eqn:E; lia).
    rewrite (big_Bytes_24 c Hc).
    destruct (c =? 0) eqn:E0; [|destruct (c / 256 =? 0) eqn:E1;
      [|destruct (c / 256 / 256 =? 0) eqn:E2]];
      rewrite ?Z.eqb_eq, ?Z.eqb_neq in *;
      cbn [insert list_insert];
      rewrite metaMessage_Bytes_layout; cbn [length];
      change (lib.VlqEncode (u32 (Z.of_nat 3))) with [3]; cbn [app];
      unfold meta.byteTempo; repeat f_equal;
      Z.to_euclidean_division_equations; lia. }
  split; [exact Hraw|].
  rewrite Hraw. cbn [drop app].
  unfold meta.Tempo_readFrom, bind.
  rewrite (ReadVarLength_one_byte 3) by lia.
  unfold lib.ReadUint24, bind, lib.ReadByte, ret, lift, go_div.
  cbn [negb Z.eqb Pos.eqb next_byte list_source].
  replace (c / 65536 * 65536 + c / 256 mod 256 * 256 + c mod 256) with c
    by (Z.to_euclidean_division_equations; lia).
  destruct (c =? 0); reflexivity.
Qed.

Lemma Tempo_Raw_payload_witness :
  let c := Z.min 500000 0xFFFFFF in
  meta.Tempo_Raw (fun bpm => 60000000 / bpm) 120
    = [0xFF; 0x51; 3; c / 65536; (c / 256) mod 256; c mod 256] /\
  meta.Tempo_readFrom 0 (drop 2 (meta.Tempo_Raw (fun bpm => 60000000 / bpm) 120) ++ [])
    = (if c =? 0 then Panic IntegerDivideByZero else Ok (meta.Tempo (60000000 / c)), []).
Proof.
  apply (Tempo_Raw_payload (fun bpm => 60000000 / bpm) 120 0 []).
  vm_compute. discriminate.
Defined.

(** ** Where the decoders panic *)
Section PanicDomain.
Context {S : Type} `{ByteSource S}.
Hypothesis source_never_panics :
  forall (s s' : S) (p : panic_value), next_byte s <> (Panic p, s').

(** X23. On a source that does not panic itself, [Read] panics only
    in the default branch of [getMsg2] and only for a status byte whose
    high nibble is outside 0x8-0xE: the default branch of [getMsg1] is
    never reached, and a channel message status never panics. *)
Theorem Read_panics_only_on_non_channel_status
  (r r' : channel.reader S) (p : panic_value) :
  0 <= channel.status r < 256 ->
  channel.Read r = (Panic p, r') ->
  p = MustNotHappen2 (channel.status r / 16) /\
  ~ (0x8 <= channel.status r / 16 <= 0xE).
Proof.
  intros Hs. unfold channel.Read.
  destruct (channel.done r); [discriminate|].
  rewrite (ParseStatus_nibbles _ Hs).
  set (typ := channel.status r / 16).
  assert (Ht : 0 <= typ < 16)
    by (subst typ; split; [apply Z.div_pos; lia | apply Z.div_lt_upper_bound; lia]).
  clearbody typ.
  destruct (lib.ReadByte (channel.input r)) as [[arg1|e|q] s1] eqn:E1;
    [ | discriminate | exfalso; exact (source_never_panics _ _ _ E1) ].
  unfold channel.byteProgramChange, channel.byteChannelPressure.
  destruct (typ =? 12) eqn:E12.
  { unfold channel.getMsg1, channel.byteProgramChange. rewrite E12. discriminate. }
  destruct (typ =? 13) eqn:E13.
  { unfold channel.getMsg1, channel.byteProgramChange, channel.byteChannelPressure.
    rewrite E12, E13. discriminate. }
  cbn [orb channel.input].
  destruct (lib.ReadByte s1) as [[arg2|e|q] s2] eqn:E2;
    [ | discriminate | exfalso; exact (source_never_panics _ _ _ E2) ].
  unfold channel.getMsg2, channel.byteNoteOff, channel.byteNoteOn,
    channel.bytePolyphonicKeyPressure, channel.byteControlChange, channel.bytePitchWheel.
  destruct (typ =? 8) eqn:E8.
  { destruct (channel.readNoteOffPedantic _); discriminate. }
  destruct (typ =? 9) eqn:E9.
  { cbn [channel.set2]. destruct (arg2 =? 0); discriminate. }
  destruct (typ =? 10) eqn:E10; [discriminate|].
  destruct (typ =? 11) eqn:E11; [discriminate|].
  destruct (typ =? 14) eqn:E14; [discriminate|].
  intros Hp. injection Hp as <- _. split; [reflexivity|lia].
Qed.

(** X24. On a source that does not panic itself, [ReadFrom] panics
    for exactly the type ids that have no codec in the registry, the
    sequencer specific id 0x7F among them, and reads nothing then. *)
Theorem ReadFrom_panics_iff_unregistered (typ : Z) (rd : S) :
  0 <= typ < 256 ->
  ((exists p rd', meta.ReadFrom typ rd = (Panic p, rd')) <-> ~ In typ registered_ids) /\
  (~ In typ registered_ids -> meta.ReadFrom typ rd = (Panic NilDereference, rd)).
Proof.
  intros Ht. pose proof (Dispatch_Some_iff typ Ht) as Hreg.
  rewrite ReadFrom_unfold.
  destruct (meta.Dispatch typ) as [proto|] eqn:Hd.
  - assert (Hin : In typ registered_ids) by (apply Hreg; discriminate).
    split; [split|]; [| tauto | tauto].
    intros (p & rd' & Hp). exfalso.
    unfold meta.Undefined_readFrom, bind in Hp.
    destruct (lib.ReadVarLengthData rd) as [[data|e|q] s1] eqn:E; try discriminate Hp.
    exact (ReadText_no_panic source_never_panics _ _ _ E).
  - assert (Hnin : ~ In typ registered_ids) by (intros Hin; apply Hreg in Hin; congruence).
    split; [split|]; eauto.
Qed.

End PanicDomain.

Lemma Read_panics_only_on_non_channel_status_witness :
  MustNotHappen2 15 = MustNotHappen2 (0xF2 / 16) /\ ~ (0x8 <= 0xF2 / 16 <= 0xE).
Proof.
  apply (Read_panics_only_on_non_channel_status list_source_never_panics
           (channel.NewReader [60; 64] 0xF2 []) (channel.mkReader [] 0xF2 true false)
           (MustNotHappen2 15)).
  - simpl. lia.
  - reflexivity.
Defined.

Lemma ReadFrom_panics_iff_unregistered_witness :
  ((exists p rd', meta.ReadFrom 0x7F [3; 1; 2; 3] = (Panic p, rd'))
     <-> ~ In 0x7F registered_ids) /\
  (~ In 0x7F registered_ids ->
   meta.ReadFrom 0x7F [3; 1; 2; 3] = (Panic NilDereference, [3; 1; 2; 3])).
Proof.
  apply (ReadFrom_panics_iff_unregistered list_source_never_panics 0x7F [3; 1; 2; 3]).
  lia.
Defined.
